(** * openrouter_model_checker.py: a shallow embedding and its properties

    The script fetches the OpenRouter model catalogue, reports for every
    configured query whether a matching model exists (free variants first),
    and prints every free model in a table sorted by supplier.

    Modelling choices.
    - A Python [str] is a [string]; every [ascii] stands for one code point
      below 256, and strings compare by code point as Python does.
    - A model record is the Python dict of one catalogue entry.  The two keys
      the script reads, ['id'] and ['context_length'], are optional fields of
      a record: [None] is an absent key.
    - [print] appends one structured [line] to an output trace; an uncaught
      exception ends the run and is the run's [outcome].
    - The HTTP exchange made by [requests.get] is a parameter of
      [fetch_models], given as a [get_result]. *)

From Stdlib Require Import String Ascii List ZArith Lia Bool.
From Stdlib Require Import Sorted Permutation DecimalString.
From Stdlib Require DecimalZ DecimalPos.
Import ListNotations.

Local Open Scope list_scope.
Local Open Scope string_scope.

(* ================================================================== *)
(** * Part I: definitions *)
(* ================================================================== *)

(** ** Python string primitives *)

(** [q in s] for two strings: [q] occurs somewhere in [s]. *)
Fixpoint contains (q s : string) : bool :=
  String.prefix q s ||
  match s with
  | EmptyString => false
  | String _ s' => contains q s'
  end.

(** [s.startswith(p)] is [String.prefix p s]; [s.endswith(suffix)] looks at
    the last [length suffix] characters of [s]. *)
Definition endswith (s suffix : string) : bool :=
  (String.length suffix <=? String.length s)%nat &&
  (String.substring (String.length s - String.length suffix)
                    (String.length suffix) s =? suffix).

(** [s.split(sep)] for a one-character separator: never empty, and a
    separator at either end or two in a row leave an empty piece. *)
Fixpoint split (sep : ascii) (s : string) : list string :=
  match s with
  | EmptyString => [EmptyString]
  | String c s' =>
      if Ascii.eqb c sep then EmptyString :: split sep s'
      else match split sep s' with
           | piece :: rest => String c piece :: rest
           | [] => [String c EmptyString]
           end
  end.

(** [str.isspace] on the code points below 256: TAB..CR, FS..US, SPACE,
    NEL (0x85) and NBSP (0xA0). *)
Definition isspace (c : ascii) : bool :=
  let n := nat_of_ascii c in
  ((9 <=? n) && (n <=? 13) || (28 <=? n) && (n <=? 32)
   || (n =? 133) || (n =? 160))%nat.

Fixpoint lstrip (s : string) : string :=
  match s with
  | EmptyString => EmptyString
  | String c s' => if isspace c then lstrip s' else s
  end.

Fixpoint rstrip (s : string) : string :=
  match s with
  | EmptyString => EmptyString
  | String c s' =>
      match rstrip s' with
      | EmptyString => if isspace c then EmptyString else String c EmptyString
      | r => String c r
      end
  end.

(** [s.strip()] *)
Definition strip (s : string) : string := rstrip (lstrip s).

(** Python orders strings by code point, a proper prefix first. *)
Fixpoint str_ltb (a b : string) : bool :=
  match a, b with
  | _, EmptyString => false
  | EmptyString, String _ _ => true
  | String x a', String y b' =>
      (nat_of_ascii x <? nat_of_ascii y)%nat
      || ((nat_of_ascii x =? nat_of_ascii y)%nat && str_ltb a' b')
  end.

Definition str_leb (a b : string) : bool := negb (str_ltb b a).

(** Tuples of two strings compare lexicographically. *)
Definition pair_ltb (k1 k2 : string * string) : bool :=
  str_ltb (fst k1) (fst k2)
  || ((fst k1 =? fst k2) && str_ltb (snd k1) (snd k2)).

Definition pair_leb (k1 k2 : string * string) : bool := negb (pair_ltb k2 k1).

(** ** Format specifications *)

(** Decimal digits with a comma before every group of three, from the right. *)
Fixpoint group3 (digits : string) : string :=
  match digits with
  | EmptyString => EmptyString
  | String d rest =>
      String d
        (if (0 <? String.length rest)%nat
            && (String.length rest mod 3 =? 0)%nat
         then String "," (group3 rest) else group3 rest)
  end.

(** [f"{n:,}"] for an [int]. *)
Definition format_thousands (n : Z) : string :=
  let digits := NilZero.string_of_uint (N.to_uint (Z.abs_N n)) in
  if (n <? 0)%Z then String "-" (group3 digits) else group3 digits.

Fixpoint spaces (n : nat) : string :=
  match n with
  | O => EmptyString
  | S n' => String " " (spaces n')
  end.

(** [f"{s:<w}"] and [f"{s:>w}"] for a [str]: padded, never cut. *)
Definition ljust (w : nat) (s : string) : string :=
  s ++ spaces (w - String.length s).

Definition rjust (w : nat) (s : string) : string :=
  spaces (w - String.length s) ++ s.

(** ** Model records *)

(** One catalogue entry, as far as the script reads it. *)
Record ModelRecord : Type := mkModel {
  id : option string;
  context_length : option Z
}.

(** [model.get('id', default)] *)
Definition get_id (default : string) (model : ModelRecord) : string :=
  match id model with
  | Some s => s
  | None => default
  end.

(** [model.get('context_length', 0)] *)
Definition get_context_length (model : ModelRecord) : Z :=
  match context_length model with
  | Some n => n
  | None => 0%Z
  end.

(** The function arguments [all_models] / [models]: a list, or [None]. *)
Definition models_arg : Type := option (list ModelRecord).

(** Truth value of such an argument: [None] and [[]] are false. *)
Definition truthy_models (a : models_arg) : bool :=
  match a with
  | Some (_ :: _) => true
  | _ => false
  end.

Definition models_of (a : models_arg) : list ModelRecord :=
  match a with
  | Some l => l
  | None => []
  end.

(** ** Exceptions and output *)

(** The exception classes that can occur.  The first five derive from
    [requests.exceptions.RequestException]; since requests 2.27 that
    includes the [JSONDecodeError] raised by [Response.json]. *)
Inductive exn : Type :=
  | ConnectionError
  | Timeout
  | TooManyRedirects
  | HTTPError
  | JSONDecodeError
  | TypeError.

Definition is_RequestException (e : exn) : bool :=
  match e with
  | TypeError => false
  | _ => true
  end.

Definition is_JSONDecodeError (e : exn) : bool :=
  match e with
  | JSONDecodeError => true
  | _ => false
  end.

(** One printed line.  Fixed messages are named after what they say; lines
    with computed columns carry the column values before padding. *)
Inductive line : Type :=
  | MsgFetching                  (* "Fetching model data from OpenRouter..." *)
  | MsgFetched                   (* "Data fetched successfully!" *)
  | ErrNoDataField               (* "The 'data' field was not found ..." *)
  | ErrConnect                   (* "Unable to connect to the OpenRouter API" *)
  | ErrDetails (e : exn)         (* "Details: {e}" *)
  | ErrParse                     (* "Failed to parse the API response ..." *)
  | CheckBanner                  (* "=== Specific Model Availability Check ===" *)
  | MsgCannotCheck               (* "Cannot perform check because the model list could not be fetched." *)
  | QueryLine (name : string)    (* "Query: '{name}'" *)
  | StatusFree                   (* "-> Status: Free" *)
  | StatusNotFree                (* "-> Status: Not Free" *)
  | StatusNotFound               (* "-> Status: No related models found" *)
  | ListHeader                   (* "   Model ID   Context Length" *)
  | ListRule                     (* "   ------ ------" *)
  | ListRow (model_id context_len : string)
  | TableBanner                  (* "=== All Free Models on OpenRouter (Sorted by Supplier) ===" *)
  | MsgNoFreeModels              (* "No free models found." *)
  | TableHeader                  (* "Supplier   Model ID   Context Length" *)
  | TableRule
  | TableRow (supplier model_id context_len : string).

(** The text of the two computed lines:
    [f"   - {model_id:<58} {context_len:>25}"] and
    [f"{supplier:<30} {model_id:<60} {context_length:>25}"]. *)
Definition render_row (l : line) : option string :=
  match l with
  | ListRow model_id context_len =>
      Some ("   - " ++ ljust 58 model_id ++ " " ++ rjust 25 context_len)
  | TableRow supplier model_id context_len =>
      Some (ljust 30 supplier ++ " " ++ ljust 60 model_id ++ " "
            ++ rjust 25 context_len)
  | _ => None
  end.

Inductive outcome (A : Type) : Type :=
  | Returned (a : A)
  | Raised (e : exn).

Arguments Returned {A} a.
Arguments Raised {A} e.

(** A run: what was printed, and how the run ended. *)
Definition Run (A : Type) : Type := (list line * outcome A)%type.

Definition ret {A} (a : A) : Run A := ([], Returned a).

Definition raise {A} (e : exn) : Run A := ([], Raised e).

Definition print (l : line) : Run unit := ([l], Returned tt).

Definition bind {A B} (m : Run A) (k : A -> Run B) : Run B :=
  match m with
  | (out, Returned a) => let (out', r) := k a in ((out ++ out')%list, r)
  | (out, Raised e) => (out, Raised e)
  end.

Notation "x <- m ;; k" := (bind m (fun x => k))
  (at level 61, m at next level, right associativity).
Notation "m ;; k" := (bind m (fun _ => k))
  (at level 61, right associativity).

(** [for x in xs: body(x)] *)
Fixpoint for_each {A} (xs : list A) (body : A -> Run unit) : Run unit :=
  match xs with
  | [] => ret tt
  | x :: xs' => body x ;; for_each xs' body
  end.

(** [try: m / except <class>: handler ...]: the first clause whose class
    contains the exception runs; with none, the exception goes on. *)
Fixpoint try_except {A} (m : Run A)
    (clauses : list ((exn -> bool) * (exn -> Run A))) : Run A :=
  match m with
  | (out, Raised e) =>
      match clauses with
      | [] => m
      | (cls, handler) :: clauses' =>
          if cls e then let (out', r) := handler e in ((out ++ out')%list, r)
          else try_except m clauses'
      end
  | _ => m
  end.

(** ** check_specific_models *)

(** The inner loop of one query: every model whose id contains [name] is
    appended to [found_free_models] or to [found_non_free_models]. *)
Definition scan_step (name : string)
    (found : list ModelRecord * list ModelRecord) (model : ModelRecord)
    : list ModelRecord * list ModelRecord :=
  let model_id := get_id "" model in
  if contains name model_id then
    if endswith model_id ":free"
    then ((fst found ++ [model])%list, snd found)
    else (fst found, (snd found ++ [model])%list)
  else found.

Definition scan (name : string) (all_models : list ModelRecord)
    : list ModelRecord * list ModelRecord :=
  fold_left (scan_step name) all_models ([], []).

(** One row of a result list.  The id column is [model.get('id')], without a
    default: for an absent id that is [None], and a width in the format
    specification of [None] raises [TypeError]. *)
Definition print_list_row (model : ModelRecord) : Run unit :=
  let context_len := format_thousands (get_context_length model) in
  match id model with
  | Some model_id => print (ListRow model_id context_len)
  | None => raise TypeError
  end.

Definition print_list (found : list ModelRecord) : Run unit :=
  print ListHeader ;;
  print ListRule ;;
  for_each found print_list_row.

(** The body of the loop over the queries. *)
Definition check_query (name : string) (all_models : list ModelRecord)
    : Run unit :=
  print (QueryLine name) ;;
  let (found_free_models, found_non_free_models) := scan name all_models in
  match found_free_models, found_non_free_models with
  | _ :: _, _ => print StatusFree ;; print_list found_free_models
  | [], _ :: _ => print StatusNotFree ;; print_list found_non_free_models
  | [], [] => print StatusNotFound
  end.

(** [[name.strip() for name in models_to_check_str.split(';')]] *)
Definition model_names_to_check (models_to_check_str : string) : list string :=
  map strip (split ";" models_to_check_str).

Definition check_specific_models (models_to_check_str : string)
    (all_models : models_arg) : Run unit :=
  print CheckBanner ;;
  if negb (truthy_models all_models) then print MsgCannotCheck
  else
    for_each (model_names_to_check models_to_check_str)
             (fun name => check_query name (models_of all_models)).

(** ** filter_free_models *)

Definition filter_step (free_models : list ModelRecord) (model : ModelRecord)
    : list ModelRecord :=
  if endswith (get_id "" model) ":free"
  then (free_models ++ [model])%list
  else free_models.

Definition filter_free_models (models : models_arg) : list ModelRecord :=
  if negb (truthy_models models) then []
  else fold_left filter_step (models_of models) [].

(** ** display_free_models_with_supplier *)

(** The sort key [(m.get('id', 'z').split('/')[0], m.get('id', ''))]. *)
Definition sort_key (m : ModelRecord) : string * string :=
  (hd "" (split "/" (get_id "z" m)), get_id "" m).

(** [sorted(models, key=...)]: ascending and stable.  Stability fixes the
    result, so any stable sort is a model; this one inserts each element
    before the first element that is not smaller. *)
Fixpoint insert_sorted (m : ModelRecord) (l : list ModelRecord)
    : list ModelRecord :=
  match l with
  | [] => [m]
  | m' :: l' =>
      if pair_ltb (sort_key m') (sort_key m) then m' :: insert_sorted m l'
      else m :: l
  end.

Fixpoint sorted (models : list ModelRecord) : list ModelRecord :=
  match models with
  | [] => []
  | m :: models' => insert_sorted m (sorted models')
  end.

(** [model_id.split('/')[0] if '/' in model_id else 'N/A'] *)
Definition supplier_of (model_id : string) : string :=
  if contains "/" model_id then hd "" (split "/" model_id) else "N/A".

Definition table_row (model : ModelRecord) : line :=
  let model_id := get_id "N/A" model in
  let supplier := supplier_of model_id in
  let context_length := format_thousands (get_context_length model) in
  TableRow supplier model_id context_length.

Definition display_free_models_with_supplier (models : models_arg)
    : Run unit :=
  print TableBanner ;;
  if negb (truthy_models models) then print MsgNoFreeModels
  else
    let sorted_models := sorted (models_of models) in
    print TableHeader ;;
    print TableRule ;;
    for_each sorted_models (fun model => print (table_row model)).

(** ** fetch_models *)

(** A decoded JSON value, as [Response.json] returns it.  [JNull] is
    Python's [None]; an object is a dict, read at the first binding of a
    key. *)
#[local] Set Warnings "-register-all".

Inductive json : Type :=
  | JNull
  | JBool (b : bool)
  | JNum (n : Z)
  | JStr (s : string)
  | JArr (items : list json)
  | JObj (fields : list (string * json)).

Fixpoint lookup (key : string) (fields : list (string * json)) : option json :=
  match fields with
  | [] => None
  | (k, v) :: fields' => if k =? key then Some v else lookup key fields'
  end.

(** What the server sent back: a status code and a body; [None] is a body
    that is not JSON, which the decoder refuses with [JSONDecodeError].  A
    body on which the decoder fails in another way (Python's recursion limit
    on very deep nesting) is not part of this model. *)
Record Response : Type := mkResponse {
  status_code : Z;
  body : option json
}.

(** The HTTP exchange: [requests.get] raises, or hands back a response. *)
Inductive get_result : Type :=
  | GetRaises (e : exn)
  | GetReturns (response : Response).

Definition requests_get (w : get_result) : Run Response :=
  match w with
  | GetRaises e => raise e
  | GetReturns response => ret response
  end.

(** [Response.raise_for_status] of the requests library: [HTTPError] for a
    status from 400 to 599, nothing otherwise. *)
Definition raise_for_status (response : Response) : Run unit :=
  if ((400 <=? status_code response) && (status_code response <? 600))%Z
  then raise HTTPError else ret tt.

(** [Response.json], for a body that decodes or that the decoder refuses. *)
Definition response_json (response : Response) : Run json :=
  match body response with
  | Some data => ret data
  | None => raise JSONDecodeError
  end.

Definition is_the_string (key : string) (v : json) : bool :=
  match v with
  | JStr s => s =? key
  | _ => false
  end.

(** [key in data]: a key of a dict, an element of a list, a substring of a
    string; the other values are not containers. *)
Definition py_in (key : string) (data : json) : Run bool :=
  match data with
  | JObj fields =>
      ret (match lookup key fields with Some _ => true | None => false end)
  | JArr items => ret (existsb (is_the_string key) items)
  | JStr s => ret (contains key s)
  | _ => raise TypeError
  end.

(** [data[key]] for a string key: only a dict can be indexed so. *)
Definition py_getitem (data : json) (key : string) : Run json :=
  match data with
  | JObj fields =>
      match lookup key fields with
      | Some v => ret v
      | None => raise TypeError (* KeyError; not reached after [py_in] *)
      end
  | _ => raise TypeError
  end.

Definition fetch_models (w : get_result) : Run json :=
  try_except
    (response <- requests_get w ;;
     raise_for_status response ;;
     data <- response_json response ;;
     has_data <- py_in "data" data ;;
     if negb has_data then print ErrNoDataField ;; ret JNull
     else py_getitem data "data")
    [ (is_RequestException,
       fun e => print ErrConnect ;; print (ErrDetails e) ;; ret JNull);
      (is_JSONDecodeError,
       fun _ => print ErrParse ;; ret JNull) ].

(** ** The program entry point *)

Definition MODELS_TO_CHECK : string := "gpt-oss-20b;deepseek-r1;qwen".

(** Truth value of a JSON value. *)
Definition truthy (v : json) : bool :=
  match v with
  | JNull => false
  | JBool b => b
  | JNum n => negb (n =? 0)%Z
  | JStr s => negb (s =? "")
  | JArr items => match items with [] => false | _ => true end
  | JObj fields => match fields with [] => false | _ => true end
  end.

(** A catalogue entry read as a record: a dict whose ['id'], when present,
    is a string and whose ['context_length'], when present, is an integer. *)
Definition as_model (v : json) : option ModelRecord :=
  match v with
  | JObj fields =>
      match lookup "id" fields, lookup "context_length" fields with
      | None, None => Some (mkModel None None)
      | Some (JStr s), None => Some (mkModel (Some s) None)
      | None, Some (JNum n) => Some (mkModel None (Some n))
      | Some (JStr s), Some (JNum n) => Some (mkModel (Some s) (Some n))
      | _, _ => None
      end
  | _ => None
  end.

Fixpoint as_model_list (items : list json) : option (list ModelRecord) :=
  match items with
  | [] => Some []
  | v :: items' =>
      match as_model v, as_model_list items' with
      | Some m, Some ms => Some (m :: ms)
      | _, _ => None
      end
  end.

Definition as_models (v : json) : option (list ModelRecord) :=
  match v with
  | JArr items => as_model_list items
  | _ => None
  end.

(** The guarded part of the main block, once the data is known to be a
    non-empty list of records. *)
Definition report (models_to_check : string) (all_models : list ModelRecord)
    : Run unit :=
  print MsgFetched ;;
  check_specific_models models_to_check (Some all_models) ;;
  let free_models_list := filter_free_models (Some all_models) in
  display_free_models_with_supplier (Some free_models_list).

(** The script's main block, for a configuration string and an HTTP
    exchange.  The result is [None] only when the fetched data is true but
    is not a list of records as above: such data is outside this model. *)
Definition main_with (models_to_check : string) (w : get_result)
    : option (Run unit) :=
  match fetch_models w with
  | (out, Raised e) => Some (print MsgFetching ;; (out, Raised e))
  | (out, Returned all_models_data) =>
      if truthy all_models_data then
        match as_models all_models_data with
        | Some all_models =>
            Some (print MsgFetching ;;
                  (out, Returned tt) ;;
                  report models_to_check all_models)
        | None => None
        end
      else Some (print MsgFetching ;; (out, Returned tt))
  end.

Definition main : get_result -> option (Run unit) := main_with MODELS_TO_CHECK.

(** ** Vocabulary of the properties *)

(** [q] occurs in [s]: some text, then [q], then some text. *)
Definition occurs_in (q s : string) : Prop :=
  exists before after, s = before ++ q ++ after.

(** [s] ends with [suffix]. *)
Definition ends_with (s suffix : string) : Prop :=
  exists before, s = before ++ suffix.

(** The free/paid signal of a record: its id, taken as empty when absent,
    ends with [":free"]. *)
Definition is_free (m : ModelRecord) : bool := endswith (get_id "" m) ":free".

(** A record matches a query when the query occurs in its id. *)
Definition matches (q : string) (m : ModelRecord) : bool :=
  contains q (get_id "" m).

Definition free_matches (q : string) (R : list ModelRecord)
    : list ModelRecord :=
  filter (fun m => matches q m && is_free m) R.

Definition non_free_matches (q : string) (R : list ModelRecord)
    : list ModelRecord :=
  filter (fun m => matches q m && negb (is_free m)) R.

Definition has_id (m : ModelRecord) : bool :=
  match id m with
  | Some _ => true
  | None => false
  end.

(** The row that lists a record: its id and its context length with
    thousands separators. *)
Definition list_row (m : ModelRecord) : line :=
  ListRow (get_id "" m) (format_thousands (get_context_length m)).

(** The records up to the first one without an id. *)
Fixpoint with_id_prefix (l : list ModelRecord) : list ModelRecord :=
  match l with
  | [] => []
  | m :: l' => if has_id m then m :: with_id_prefix l' else []
  end.

(** [l1] is [l2] with some elements left out, the order kept. *)
Inductive subseq {A : Type} : list A -> list A -> Prop :=
  | subseq_nil : subseq [] []
  | subseq_keep x l1 l2 : subseq l1 l2 -> subseq (x :: l1) (x :: l2)
  | subseq_drop x l1 l2 : subseq l1 l2 -> subseq l1 (x :: l2).

(** The order of the sort keys. *)
Definition key_le (m1 m2 : ModelRecord) : Prop :=
  pair_leb (sort_key m1) (sort_key m2) = true.

(** The printed (supplier, id) columns of a table row. *)
Definition row_columns (l : line) : option (string * string) :=
  match l with
  | TableRow supplier model_id _ => Some (supplier, model_id)
  | _ => None
  end.

(** Adjacent rows are in ascending order of their (supplier, id) columns. *)
Fixpoint rows_ascending (rows : list line) : bool :=
  match rows with
  | r1 :: ((r2 :: _) as rest) =>
      match row_columns r1, row_columns r2 with
      | Some c1, Some c2 => pair_leb c1 c2 && rows_ascending rest
      | _, _ => rows_ascending rest
      end
  | _ => true
  end.

(** The table rows among the printed lines. *)
Definition table_rows (out : list line) : list line :=
  filter (fun l => match l with TableRow _ _ _ => true | _ => false end) out.

(** The listed rows among the printed lines. *)
Definition list_rows (out : list line) : list line :=
  filter (fun l => match l with ListRow _ _ => true | _ => false end) out.

(** The ['data'] field of a decoded body, when it is an object that has
    one. *)
Definition data_field (d : json) : option json :=
  match d with
  | JObj fields => lookup "data" fields
  | _ => None
  end.

(** The failure cases as the specification lists them: the request raises,
    the status is not 2xx, the body is not JSON, or the decoded body has no
    ['data'] field. *)
Definition listed_failure (w : get_result) : bool :=
  match w with
  | GetRaises _ => true
  | GetReturns response =>
      negb ((200 <=? status_code response)
            && (status_code response <? 300))%Z
      || match body response with
         | None => true
         | Some d => match data_field d with None => true | Some _ => false end
         end
  end.

(** What the specification says of [fetch_models]: in the listed failure
    cases the result is [None] with a diagnostic, and in every other case it
    is the ['data'] field with nothing printed. *)
Definition fetch_models_as_specified (w : get_result) : Prop :=
  if listed_failure w then
    exists diagnostic,
      diagnostic <> [] /\ fetch_models w = (diagnostic, Returned JNull)
  else
    exists v,
      (exists response d, w = GetReturns response
         /\ body response = Some d /\ data_field d = Some v)
      /\ fetch_models w = ([], Returned v).

(** What the specification says of the main block after a failed fetch: both
    reports still print their message, and no table row appears. *)
Definition reports_run_without_data (models_to_check : string)
    (w : get_result) : Prop :=
  snd (fetch_models w) = Returned JNull ->
  exists out r,
    main_with models_to_check w = Some (out, r)
    /\ In MsgCannotCheck out
    /\ In MsgNoFreeModels out
    /\ table_rows out = [].

(** The lines [fetch_models] can print. *)
Definition is_fetch_diagnostic (l : line) : bool :=
  match l with
  | ErrNoDataField | ErrConnect | ErrDetails _ | ErrParse => true
  | _ => false
  end.

(** A response with status 300 (Multiple Choices, which requests does not
    follow) whose body is a catalogue with no entry. *)
Definition multiple_choices : get_result :=
  GetReturns (mkResponse 300 (Some (JObj [("data", JArr [])]))).

(** A response whose body is the JSON number 5. *)
Definition scalar_body : get_result :=
  GetReturns (mkResponse 200 (Some (JNum 5))).

(** A catalogue with one entry. *)
Definition one_entry : json :=
  JArr [JObj [("id", JStr "qwen/qwen3-8b:free");
              ("context_length", JNum 40960)]].

(** ** Sample catalogue entries *)

Definition gpt_oss_free : ModelRecord :=
  mkModel (Some "openai/gpt-oss-20b:free") (Some 131072%Z).

Definition gpt_oss_paid : ModelRecord :=
  mkModel (Some "openai/gpt-oss-20b") (Some 131072%Z).

(** An entry that has a context length and no id. *)
Definition anonymous_model : ModelRecord := mkModel None (Some 4096%Z).

Definition acme_free : ModelRecord :=
  mkModel (Some "acme/foo:free") (Some 8192%Z).

(** A free entry whose id has no supplier part. *)
Definition bare_free : ModelRecord :=
  mkModel (Some "beta:free") (Some 32768%Z).

Definition z_ai_free : ModelRecord :=
  mkModel (Some "z-ai/glm-4.5-air:free") (Some 131072%Z).

(** The HTTP exchange that delivers the given catalogue with status 200. *)
Definition delivers (entries : list json) : get_result :=
  GetReturns (mkResponse 200 (Some (JObj [("data", JArr entries)]))).

(** The JSON of [bare_free], [acme_free] and [anonymous_model]. *)
Definition bare_free_json : json :=
  JObj [("id", JStr "beta:free"); ("context_length", JNum 32768)].

Definition acme_free_json : json :=
  JObj [("id", JStr "acme/foo:free"); ("context_length", JNum 8192)].

Definition anonymous_json : json := JObj [("context_length", JNum 4096)].

(** ** Further vocabulary *)

(** The names of the queries among the printed lines, in order. *)
Fixpoint query_names (out : list line) : list string :=
  match out with
  | [] => []
  | QueryLine name :: out' => name :: query_names out'
  | _ :: out' => query_names out'
  end.

(** When the matcher stops with [TypeError]: some query is empty, no record
    is free, and some record has no id. *)
Definition matcher_crashes (models_to_check_str : string)
    (R : list ModelRecord) : bool :=
  existsb (String.eqb "") (model_names_to_check models_to_check_str)
  && negb (existsb is_free R)
  && negb (forallb has_id R).

(** The HTTP exchanges on which an exception leaves [fetch_models]: the
    request raised something that is not a requests exception, or the status
    passed and the decoded body is a number, a boolean or [null], a list
    that has the string ["data"] as an element, or a string that contains
    ["data"]. *)
Definition escapes (w : get_result) : bool :=
  match w with
  | GetRaises e => negb (is_RequestException e)
  | GetReturns response =>
      if ((400 <=? status_code response)
          && (status_code response <? 600))%Z then false
      else match body response with
           | None => false
           | Some (JObj _) => false
           | Some (JArr items) => existsb (is_the_string "data") items
           | Some (JStr s) => contains "data" s
           | Some _ => true
           end
  end.

(** A string without its commas. *)
Fixpoint remove_commas (s : string) : string :=
  match s with
  | EmptyString => EmptyString
  | String c s' =>
      if Ascii.eqb c "," then remove_commas s' else String c (remove_commas s')
  end.

(** How often a character occurs in a string. *)
Fixpoint count_char (c : ascii) (s : string) : nat :=
  match s with
  | EmptyString => 0
  | String c' s' => (if Ascii.eqb c' c then 1 else 0) + count_char c s'
  end.

(** The message of the second [except] clause of [fetch_models]. *)
Definition is_parse_message (l : line) : bool :=
  match l with
  | ErrParse => true
  | _ => false
  end.

(** The report of one query as the selection policy words it: the query
    line, then the status "free" and a row for every free match; or, with no
    free match, the status "not free" and a row for every other match; or,
    with no match at all, the status "not found" and no list. *)
Definition selected_report (q : string) (R : list ModelRecord) : list line :=
  QueryLine q
  :: match free_matches q R, non_free_matches q R with
     | _ :: _, _ =>
         StatusFree :: ListHeader :: ListRule
           :: map list_row (free_matches q R)
     | [], _ :: _ =>
         StatusNotFree :: ListHeader :: ListRule
           :: map list_row (non_free_matches q R)
     | [], [] => [StatusNotFound]
     end.

(** The exchanges on which the decoder is not asked or answers with a
    value: the request raised, the status is from 400 to 599, or the body is
    JSON. *)
Definition body_decodes (w : get_result) : bool :=
  match w with
  | GetRaises _ => true
  | GetReturns response =>
      ((400 <=? status_code response) && (status_code response <? 600))%Z
      || match body response with Some _ => true | None => false end
  end.

(** Two paid entries, and a third free entry of the supplier of
    [gpt_oss_free]. *)
Definition vendor_a : ModelRecord := mkModel (Some "a/b") (Some 1024%Z).

Definition vendor_c : ModelRecord := mkModel (Some "c/d") (Some 2048%Z).

Definition gpt_oss_120b_free : ModelRecord :=
  mkModel (Some "openai/gpt-oss-120b:free") (Some 131072%Z).

(* ================================================================== *)
(** * Part II: properties *)
(* ================================================================== *)

(** ** Strings *)

Section StringFacts.

Lemma append_nil_r (s : string) : s ++ "" = s.
Proof. induction s; simpl; congruence. Qed.

Lemma append_assoc (a b c : string) : (a ++ b) ++ c = a ++ (b ++ c).
Proof. induction a; simpl; congruence. Qed.

Lemma length_append (a b : string) :
  String.length (a ++ b) = String.length a + String.length b.
Proof. induction a; simpl; congruence. Qed.

Lemma prefix_iff (p s : string) :
  String.prefix p s = true <-> exists rest, s = p ++ rest.
Proof.
  revert s; induction p as [|c p IH]; intros s.
  - split; [intros _; exists s; reflexivity|].
    intros _. destruct s; reflexivity.
  - destruct s as [|d s]; simpl.
    + split; [discriminate|]. intros [rest H]; discriminate.
    + destruct (ascii_dec c d) as [->|Hne].
      * rewrite IH. split; intros [rest H]; exists rest.
        -- now rewrite H.
        -- now injection H.
      * split; [discriminate|]. intros [rest H]. injection H as H1 H2.
        now elim Hne.
Qed.

Lemma contains_iff (q s : string) :
  contains q s = true <-> occurs_in q s.
Proof.
  unfold occurs_in. induction s as [|c s IH].
  - cbn [contains]. rewrite orb_false_r, prefix_iff. split.
    + intros [rest H]. exists "", rest. exact H.
    + intros [[|x before] [after H]]; [now exists after|discriminate].
  - cbn [contains]. rewrite orb_true_iff, IH, prefix_iff. split.
    + intros [[rest H]|[before [after H]]].
      * exists "", rest. exact H.
      * exists (String c before), after. simpl. now rewrite H.
    + intros [[|x before] [after H]].
      * left. now exists after.
      * right. simpl in H. injection H as _ H. now exists before, after.
Qed.

Lemma contains_empty (s : string) : contains "" s = true.
Proof. apply contains_iff. exists "", s. reflexivity. Qed.

Lemma substring_all (s : string) : substring 0 (String.length s) s = s.
Proof. induction s; simpl; congruence. Qed.

Lemma substring_skip (a s : string) (n : nat) :
  substring (String.length a) n (a ++ s) = substring 0 n s.
Proof. induction a; simpl; [destruct s, n|]; auto. Qed.

Lemma substring_cut (n : nat) (s : string) :
  n <= String.length s ->
  s = substring 0 n s ++ substring n (String.length s - n) s.
Proof.
  revert s; induction n as [|n IH]; intros s Hn.
  - rewrite Nat.sub_0_r, substring_all. now destruct s.
  - destruct s as [|c s]; simpl in *; [lia|].
    f_equal. apply IH. lia.
Qed.

Lemma endswith_iff (s suffix : string) :
  endswith s suffix = true <-> ends_with s suffix.
Proof.
  unfold endswith, ends_with. rewrite andb_true_iff, Nat.leb_le, String.eqb_eq.
  split.
  - intros [Hlen Hsub].
    exists (substring 0 (String.length s - String.length suffix) s).
    assert (Hcut := substring_cut (String.length s - String.length suffix) s).
    replace (String.length s - (String.length s - String.length suffix))
      with (String.length suffix) in Hcut by lia.
    rewrite Hsub in Hcut. apply Hcut. lia.
  - intros [before ->]. rewrite length_append. split; [lia|].
    replace (String.length before + String.length suffix
             - String.length suffix) with (String.length before) by lia.
    rewrite substring_skip. apply substring_all.
Qed.

End StringFacts.

(** ** Runs *)

Section RunFacts.

Context {A : Type}.

Lemma for_each_print (f : A -> line) (xs : list A) :
  for_each xs (fun x => print (f x)) = (map f xs, Returned tt).
Proof.
  induction xs as [|x xs IH]; [reflexivity|].
  cbn [for_each]. rewrite IH. reflexivity.
Qed.

Lemma print_then (l : line) (k : Run A) :
  (print l ;; k) = ((l :: fst k)%list, snd k).
Proof. destruct k. reflexivity. Qed.

Lemma subseq_refl (l : list A) : subseq l l.
Proof. induction l; constructor; assumption. Qed.

Lemma subseq_filter (p : A -> bool) (l : list A) : subseq (filter p l) l.
Proof.
  induction l as [|x l IH]; simpl; [constructor|].
  destruct (p x); constructor; assumption.
Qed.

Lemma subseq_In (l1 l2 : list A) (x : A) :
  subseq l1 l2 -> In x l1 -> In x l2.
Proof.
  induction 1; simpl; intros Hin; auto.
  destruct Hin; auto.
Qed.

End RunFacts.

(** ** The free signal and the matcher's scan *)

Section Matching.

Lemma is_free_iff (m : ModelRecord) :
  is_free m = true <-> exists before, id m = Some (before ++ ":free").
Proof.
  unfold is_free. rewrite endswith_iff. unfold ends_with, get_id.
  destruct (id m) as [s|].
  - split; intros [before H]; exists before; congruence.
  - split; intros [before H]; [|discriminate].
    destruct before; discriminate.
Qed.

Lemma is_free_has_id (m : ModelRecord) : is_free m = true -> has_id m = true.
Proof.
  rewrite is_free_iff. intros [before H]. unfold has_id. now rewrite H.
Qed.

Lemma absent_id_never_free (m : ModelRecord) :
  id m = None -> is_free m = false.
Proof.
  intros H. destruct (is_free m) eqn:E; [|reflexivity].
  apply is_free_has_id in E. unfold has_id in E. now rewrite H in E.
Qed.

Lemma absent_id_matches_only_empty_query (q : string) (m : ModelRecord) :
  id m = None -> (matches q m = true <-> q = "").
Proof.
  intros H. unfold matches, get_id. rewrite H, contains_iff. split.
  - intros [before [after E]].
    destruct before; [destruct q|]; [reflexivity|discriminate..].
  - intros ->. now exists "", "".
Qed.

Lemma with_id_prefix_all (l : list ModelRecord) :
  forallb has_id l = true -> with_id_prefix l = l.
Proof.
  induction l as [|m l IH]; simpl; [reflexivity|].
  destruct (has_id m); simpl; [|discriminate].
  intros H. now rewrite IH.
Qed.

Lemma with_id_prefix_subseq (l : list ModelRecord) :
  subseq (with_id_prefix l) l.
Proof.
  induction l as [|m l IH]; simpl; [constructor|].
  destruct (has_id m); [now constructor|].
  constructor. clear IH. induction l; constructor; assumption.
Qed.

Lemma scan_from (q : string) (R F N : list ModelRecord) :
  fold_left (scan_step q) R (F, N)
  = ((F ++ free_matches q R)%list, (N ++ non_free_matches q R)%list).
Proof.
  revert F N; induction R as [|m R IH]; intros F N.
  - simpl. now rewrite !app_nil_r.
  - cbn [fold_left]. unfold scan_step at 2.
    unfold free_matches, non_free_matches in *. cbn [filter fst snd].
    fold (matches q m). fold (is_free m).
    destruct (matches q m), (is_free m); cbn [andb negb];
      rewrite IH; now rewrite <- ?app_assoc.
Qed.

Lemma scan_filter (q : string) (R : list ModelRecord) :
  scan q R = (free_matches q R, non_free_matches q R).
Proof. unfold scan. now rewrite scan_from. Qed.

Lemma free_matches_have_id (q : string) (R : list ModelRecord) :
  forallb has_id (free_matches q R) = true.
Proof.
  apply forallb_forall. intros m Hin.
  apply filter_In in Hin as [_ H]. apply andb_true_iff in H as [_ H].
  now apply is_free_has_id.
Qed.

Lemma for_each_list_rows (found : list ModelRecord) :
  for_each found print_list_row
  = (map list_row (with_id_prefix found),
     if forallb has_id found then Returned tt else Raised TypeError).
Proof.
  induction found as [|m found IH]; [reflexivity|].
  cbn [for_each with_id_prefix forallb].
  assert (Hid : has_id m = match id m with Some _ => true | None => false end)
    by reflexivity.
  unfold print_list_row at 1.
  destruct (id m) as [s|] eqn:E; rewrite Hid; [|reflexivity].
  rewrite print_then, IH. cbn [map fst snd andb].
  unfold list_row at 2, get_id. now rewrite E.
Qed.

Lemma print_list_rows (found : list ModelRecord) :
  print_list found
  = ((ListHeader :: ListRule :: map list_row (with_id_prefix found))%list,
     if forallb has_id found then Returned tt else Raised TypeError).
Proof.
  unfold print_list. now rewrite !print_then, for_each_list_rows.
Qed.

Lemma split_nonempty (sep : ascii) (s : string) : split sep s <> [].
Proof.
  destruct s as [|c s]; simpl; [discriminate|].
  destruct (Ascii.eqb c sep); [discriminate|].
  destruct (split sep s); discriminate.
Qed.

Lemma split_at_separator (sep : ascii) (a b : string) :
  split sep (a ++ String sep b) = (split sep a ++ split sep b)%list.
Proof.
  induction a as [|c a IH]; simpl.
  - now rewrite Ascii.eqb_refl.
  - destruct (Ascii.eqb c sep); rewrite IH; [reflexivity|].
    destruct (split sep a) eqn:E; [|reflexivity].
    now elim (split_nonempty sep a).
Qed.

End Matching.

(** ** The matcher *)

Section Matcher.

(** The loop over the queries, for a non-empty record list. *)
Lemma check_specific_models_queries (cfg : string) (m : ModelRecord)
    (R : list ModelRecord) :
  check_specific_models cfg (Some (m :: R))
  = (print CheckBanner ;;
     for_each (model_names_to_check cfg) (fun q => check_query q (m :: R))).
Proof. reflexivity. Qed.

(** The report of one query, in every case. *)
Lemma check_query_report (q : string) (R : list ModelRecord) :
  check_query q R =
    match free_matches q R, non_free_matches q R with
    | _ :: _, _ =>
        (([QueryLine q; StatusFree; ListHeader; ListRule]
          ++ map list_row (free_matches q R))%list,
         Returned tt)
    | [], _ :: _ =>
        (([QueryLine q; StatusNotFree; ListHeader; ListRule]
          ++ map list_row (with_id_prefix (non_free_matches q R)))%list,
         if forallb has_id (non_free_matches q R)
         then Returned tt else Raised TypeError)
    | [], [] => ([QueryLine q; StatusNotFound], Returned tt)
    end.
Proof.
  unfold check_query. rewrite scan_filter.
  assert (Hfree := free_matches_have_id q R).
  destruct (free_matches q R) as [|f F] eqn:EF.
  - destruct (non_free_matches q R) as [|n N] eqn:EN; [reflexivity|].
    now rewrite !print_then, print_list_rows.
  - rewrite !print_then, print_list_rows, Hfree.
    now rewrite (with_id_prefix_all _ Hfree).
Qed.

(** A query that is not empty matches only records that have an id. *)
Lemma non_empty_query_matches_have_id (q : string) (R : list ModelRecord) :
  q <> "" -> forallb has_id (non_free_matches q R) = true.
Proof.
  intros Hq. apply forallb_forall. intros m Hin.
  apply filter_In in Hin as [_ H]. apply andb_true_iff in H as [H _].
  unfold has_id. destruct (id m) eqn:E; [reflexivity|].
  now apply (absent_id_matches_only_empty_query q m E) in H.
Qed.

(** C7.  The scan of [R] for [q] collects exactly the records whose id
    contains [q], the free ones and the others apart; each collected record
    is a record of [R] whose id has [q] somewhere inside it, character for
    character; each of the two lists keeps the order of [R]; and every row
    printed for [q] shows an id that contains [q]. *)
Theorem scan_collects_matches_in_order (q : string) (R : list ModelRecord) :
  scan q R = (free_matches q R, non_free_matches q R)
  /\ (forall m, In m (fst (scan q R)) \/ In m (snd (scan q R)) ->
        In m R /\ occurs_in q (get_id "" m))
  /\ subseq (fst (scan q R)) R
  /\ subseq (snd (scan q R)) R
  /\ (forall model_id context_len,
        In (ListRow model_id context_len) (fst (check_query q R)) ->
        occurs_in q model_id).
Proof.
  rewrite scan_filter. cbn [fst snd].
  split; [reflexivity|]. split; [|split; [|split]].
  - intros m [H|H]; apply filter_In in H as [Hin H];
      apply andb_true_iff in H as [H _]; split; trivial;
      now apply contains_iff.
  - apply subseq_filter.
  - apply subseq_filter.
  - intros model_id context_len Hrow.
    assert (Hrows : forall l, In (ListRow model_id context_len)
                                 (map list_row l) ->
                              exists m, In m l /\ get_id "" m = model_id).
    { intros l Hl. apply in_map_iff in Hl as [m [E Hm]].
      exists m. split; [exact Hm|]. now injection E. }
    assert (Hocc : forall m, In m (free_matches q R)
                             \/ In m (non_free_matches q R) ->
                             occurs_in q (get_id "" m)).
    { intros m [H|H]; apply filter_In in H as [_ H];
        apply andb_true_iff in H as [H _]; now apply contains_iff. }
    rewrite check_query_report in Hrow.
    destruct (free_matches q R) as [|f F] eqn:EF.
    + destruct (non_free_matches q R) as [|n N] eqn:EN; cbn [fst] in Hrow.
      * simpl in Hrow. intuition discriminate.
      * apply in_app_or in Hrow as [Hrow|Hrow];
          [simpl in Hrow; intuition discriminate|].
        apply Hrows in Hrow as [m [Hm <-]]. apply Hocc. right.
        eapply subseq_In; [apply with_id_prefix_subseq|exact Hm].
    + cbn [fst] in Hrow. apply in_app_or in Hrow as [Hrow|Hrow];
        [simpl in Hrow; intuition discriminate|].
      apply Hrows in Hrow as [m [Hm <-]]. apply Hocc. now left.
Qed.

End Matcher.

Section MatcherCases.

Lemma matches_empty_query (m : ModelRecord) : matches "" m = true.
Proof. apply contains_empty. Qed.

Lemma free_matches_empty_query (R : list ModelRecord) :
  free_matches "" R = filter is_free R.
Proof.
  apply filter_ext. intros m. now rewrite matches_empty_query.
Qed.

Lemma non_free_matches_empty_query (R : list ModelRecord) :
  non_free_matches "" R = filter (fun m => negb (is_free m)) R.
Proof.
  apply filter_ext. intros m. now rewrite matches_empty_query.
Qed.

Lemma filter_nil_existsb {A} (p : A -> bool) (l : list A) :
  existsb p l = match filter p l with [] => false | _ => true end.
Proof.
  induction l as [|x l IH]; simpl; [reflexivity|].
  destruct (p x); [reflexivity|exact IH].
Qed.

Lemma strip_empty : strip "" = "".
Proof. reflexivity. Qed.


(** Over records none of which is free, the empty query reaches the first
    record without an id and stops there. *)
Lemma empty_query_raises_on_absent_id (R : list ModelRecord) :
  existsb is_free R = false -> forallb has_id R = false ->
  snd (check_query "" R) = Raised TypeError.
Proof.
  intros Hfree Hid. rewrite check_query_report.
  rewrite free_matches_empty_query, non_free_matches_empty_query.
  assert (E : filter (fun m => negb (is_free m)) R = R).
  { clear Hid. induction R as [|m R IH]; [reflexivity|].
    simpl in *. destruct (is_free m); [discriminate|].
    simpl. f_equal. now apply IH. }
  rewrite filter_nil_existsb in Hfree.
  destruct (filter is_free R); [|discriminate].
  rewrite E, Hid. destruct R; [discriminate|reflexivity].
Qed.

(** C10.  A record without an id is never free and matches the empty query
    only, yet the matcher does raise on it: for the configuration ["qwen;"]
    and the one record [{'context_length': 4096}] the empty query selects
    the record as a non-free match, and printing its row raises
    [TypeError] after the list header; so does the main block when the
    catalogue it fetched is that record. *)
Theorem absent_id_raises_in_matcher :
  is_free anonymous_model = false
  /\ matches "" anonymous_model = true
  /\ filter_free_models (Some [anonymous_model]) = []
  /\ check_specific_models "qwen;" (Some [anonymous_model])
     = ([CheckBanner; QueryLine "qwen"; StatusNotFound;
         QueryLine ""; StatusNotFree; ListHeader; ListRule],
        Raised TypeError)
  /\ main_with "qwen;" (delivers [anonymous_json])
     = Some ([MsgFetching; MsgFetched; CheckBanner;
              QueryLine "qwen"; StatusNotFound;
              QueryLine ""; StatusNotFree; ListHeader; ListRule],
             Raised TypeError).
Proof. repeat split. Qed.

End MatcherCases.

(** ** The free-set filter *)

Section FreeSetFilter.

Lemma filter_step_from (R acc : list ModelRecord) :
  fold_left filter_step R acc = (acc ++ filter is_free R)%list.
Proof.
  revert acc; induction R as [|m R IH]; intros acc; simpl.
  - now rewrite app_nil_r.
  - rewrite IH. unfold filter_step. fold (is_free m).
    destruct (is_free m); [|reflexivity].
    now rewrite <- app_assoc.
Qed.

Lemma filter_free_models_filter (models : models_arg) :
  filter_free_models models = filter is_free (models_of models).
Proof.
  unfold filter_free_models.
  destruct models as [[|m R]|]; try reflexivity.
  cbn [truthy_models negb]. now rewrite filter_step_from.
Qed.

Lemma filter_twice {A} (p : A -> bool) (l : list A) :
  filter p (filter p l) = filter p l.
Proof.
  induction l as [|x l IH]; simpl; [reflexivity|].
  destruct (p x) eqn:E; simpl; [rewrite E, IH|]; auto.
Qed.

(** C5.  [filter_free_models] returns the records whose id ends with the
    literal suffix [":free"], all of them and no other, in the order they
    have in the input; the empty list and the absent list give the empty
    list. *)
Theorem filter_free_models_exact (R : list ModelRecord) :
  filter_free_models (Some R) = filter is_free R
  /\ (forall m, In m (filter_free_models (Some R)) <->
        In m R /\ exists before, id m = Some (before ++ ":free"))
  /\ subseq (filter_free_models (Some R)) R
  /\ filter_free_models (Some []) = []
  /\ filter_free_models None = [].
Proof.
  rewrite filter_free_models_filter. cbn [models_of].
  split; [reflexivity|]. split; [|split; [apply subseq_filter|now split]].
  intros m. rewrite filter_In, is_free_iff. reflexivity.
Qed.

(** C6.  Filtering the output of [filter_free_models] again changes
    nothing. *)
Theorem filter_free_models_idempotent (models : models_arg) :
  filter_free_models (Some (filter_free_models models))
  = filter_free_models models.
Proof.
  rewrite !filter_free_models_filter. cbn [models_of]. apply filter_twice.
Qed.

End FreeSetFilter.

(** ** The order of strings and of sort keys *)

Section KeyOrder.

Lemma nat_of_ascii_inj (x y : ascii) :
  nat_of_ascii x = nat_of_ascii y -> x = y.
Proof.
  intros H. rewrite <- (ascii_nat_embedding x), <- (ascii_nat_embedding y).
  now rewrite H.
Qed.

Lemma str_ltb_irrefl (a : string) : str_ltb a a = false.
Proof.
  induction a as [|x a IH]; simpl; [reflexivity|].
  now rewrite Nat.ltb_irrefl, Nat.eqb_refl, IH.
Qed.

Lemma str_ltb_trans (a b c : string) :
  str_ltb a b = true -> str_ltb b c = true -> str_ltb a c = true.
Proof.
  revert b c; induction a as [|x a IH]; intros [|y b] [|z c]; simpl;
    try discriminate; try reflexivity.
  rewrite !orb_true_iff, !andb_true_iff, !Nat.ltb_lt, !Nat.eqb_eq.
  intros [Hxy|[Hxy Hab]] [Hyz|[Hyz Hbc]].
  - left; lia.
  - left; lia.
  - left; lia.
  - right. split; [lia|]. now apply (IH b c).
Qed.

Lemma str_ltb_trichotomy (a b : string) :
  str_ltb a b = false -> str_ltb b a = false -> a = b.
Proof.
  revert b; induction a as [|x a IH]; intros [|y b]; simpl;
    try discriminate; try reflexivity.
  rewrite !orb_false_iff, !andb_false_iff, !Nat.ltb_ge, !Nat.eqb_neq.
  intros [Hxy Hab] [Hyx Hba].
  assert (E : nat_of_ascii x = nat_of_ascii y) by lia.
  apply nat_of_ascii_inj in E. subst y. f_equal.
  apply IH; [destruct Hab|destruct Hba]; congruence.
Qed.

Lemma pair_ltb_irrefl (k : string * string) : pair_ltb k k = false.
Proof.
  unfold pair_ltb. now rewrite !str_ltb_irrefl, andb_false_r.
Qed.

Lemma pair_ltb_trans (k1 k2 k3 : string * string) :
  pair_ltb k1 k2 = true -> pair_ltb k2 k3 = true -> pair_ltb k1 k3 = true.
Proof.
  unfold pair_ltb.
  rewrite !orb_true_iff, !andb_true_iff, !String.eqb_eq.
  intros [H12|[E12 H12]] [H23|[E23 H23]].
  - left. now apply (str_ltb_trans _ (fst k2)).
  - left. congruence.
  - left. congruence.
  - right. split; [congruence|]. now apply (str_ltb_trans _ (snd k2)).
Qed.

Lemma pair_ltb_trichotomy (k1 k2 : string * string) :
  pair_ltb k1 k2 = false -> pair_ltb k2 k1 = false -> k1 = k2.
Proof.
  destruct k1 as [p1 s1], k2 as [p2 s2]. unfold pair_ltb. cbn [fst snd].
  rewrite !orb_false_iff, !andb_false_iff, !String.eqb_neq.
  intros [Hp12 H12] [Hp21 H21].
  assert (p1 = p2) by now apply str_ltb_trichotomy. subst p2.
  f_equal. apply str_ltb_trichotomy; [destruct H12|destruct H21]; congruence.
Qed.

Lemma pair_ltb_leb (k1 k2 : string * string) :
  pair_ltb k1 k2 = true -> pair_leb k1 k2 = true.
Proof.
  intros H. unfold pair_leb. destruct (pair_ltb k2 k1) eqn:E; [|reflexivity].
  assert (C := pair_ltb_trans _ _ _ H E).
  now rewrite pair_ltb_irrefl in C.
Qed.

Lemma pair_leb_cases (k1 k2 : string * string) :
  pair_leb k1 k2 = true <-> pair_ltb k1 k2 = true \/ k1 = k2.
Proof.
  split.
  - unfold pair_leb. intros H. apply negb_true_iff in H.
    destruct (pair_ltb k1 k2) eqn:E; [now left|right].
    now apply pair_ltb_trichotomy.
  - intros [H| ->]; [now apply pair_ltb_leb|].
    unfold pair_leb. now rewrite pair_ltb_irrefl.
Qed.

Lemma pair_leb_trans (k1 k2 k3 : string * string) :
  pair_leb k1 k2 = true -> pair_leb k2 k3 = true -> pair_leb k1 k3 = true.
Proof.
  rewrite !pair_leb_cases. intros [H12| ->] [H23| ->]; auto.
  left. now apply (pair_ltb_trans _ k2).
Qed.

Lemma pair_leb_total (k1 k2 : string * string) :
  pair_leb k1 k2 = true \/ pair_leb k2 k1 = true.
Proof.
  destruct (pair_ltb k1 k2) eqn:E.
  - left. now apply pair_ltb_leb.
  - right. unfold pair_leb. now rewrite E.
Qed.

End KeyOrder.

(** ** sorted *)

Section SortedFacts.

Lemma insert_sorted_perm (m : ModelRecord) (l : list ModelRecord) :
  Permutation (insert_sorted m l) (m :: l).
Proof.
  induction l as [|m' l IH]; simpl; [apply Permutation_refl|].
  destruct (pair_ltb (sort_key m') (sort_key m)); [|apply Permutation_refl].
  apply perm_trans with (m' :: m :: l); [now constructor|apply perm_swap].
Qed.

Lemma sorted_perm (l : list ModelRecord) : Permutation (sorted l) l.
Proof.
  induction l as [|m l IH]; simpl; [constructor|].
  apply perm_trans with (m :: sorted l);
    [apply insert_sorted_perm|now constructor].
Qed.

Lemma insert_sorted_HdRel (m m0 : ModelRecord) (l : list ModelRecord) :
  key_le m0 m -> HdRel key_le m0 l -> HdRel key_le m0 (insert_sorted m l).
Proof.
  intros Hm Hl. destruct l as [|m' l]; simpl; [now constructor|].
  inversion Hl; subst.
  destruct (pair_ltb (sort_key m') (sort_key m)); now constructor.
Qed.

Lemma insert_sorted_Sorted (m : ModelRecord) (l : list ModelRecord) :
  Sorted key_le l -> Sorted key_le (insert_sorted m l).
Proof.
  induction 1 as [|m' l Hl IH Hhd]; simpl; [repeat constructor|].
  destruct (pair_ltb (sort_key m') (sort_key m)) eqn:E.
  - constructor; [exact IH|].
    apply insert_sorted_HdRel; [|exact Hhd].
    now apply pair_ltb_leb.
  - constructor; [now constructor|]. constructor.
    unfold key_le, pair_leb. now rewrite E.
Qed.

Lemma sorted_Sorted (l : list ModelRecord) : Sorted key_le (sorted l).
Proof.
  induction l as [|m l IH]; simpl; [constructor|].
  now apply insert_sorted_Sorted.
Qed.

Lemma sorted_StronglySorted (l : list ModelRecord) :
  StronglySorted key_le (sorted l).
Proof.
  apply Sorted_StronglySorted; [|apply sorted_Sorted].
  intros m1 m2 m3. apply pair_leb_trans.
Qed.

(** Stability: records with the same key keep their order. *)
Lemma insert_sorted_stable (k : string * string) (m : ModelRecord)
    (l : list ModelRecord) :
  let same m' := if pair_ltb (sort_key m') k then false
                 else negb (pair_ltb k (sort_key m')) in
  filter same (insert_sorted m l) = filter same (m :: l).
Proof.
  intros same. induction l as [|m' l IH]; [reflexivity|].
  cbn [insert_sorted].
  destruct (pair_ltb (sort_key m') (sort_key m)) eqn:E; [|reflexivity].
  cbn [filter] in *. rewrite IH.
  destruct (same m) eqn:Sm, (same m') eqn:Sm'; try reflexivity.
  exfalso. unfold same in Sm, Sm'.
  destruct (pair_ltb (sort_key m) k) eqn:A; [discriminate|].
  destruct (pair_ltb (sort_key m') k) eqn:B; [discriminate|].
  apply negb_true_iff in Sm, Sm'.
  rewrite (pair_ltb_trichotomy _ _ A Sm) in E.
  rewrite (pair_ltb_trichotomy _ _ B Sm') in E.
  now rewrite pair_ltb_irrefl in E.
Qed.

Lemma sorted_stable (k : string * string) (l : list ModelRecord) :
  let same m' := if pair_ltb (sort_key m') k then false
                 else negb (pair_ltb k (sort_key m')) in
  filter same (sorted l) = filter same l.
Proof.
  intros same. induction l as [|m l IH]; [reflexivity|].
  cbn [sorted]. unfold same. rewrite insert_sorted_stable.
  fold same. cbn [filter]. now rewrite IH.
Qed.

End SortedFacts.

(** ** The supplier table *)

Section SupplierTable.

Lemma display_rows (m : ModelRecord) (R : list ModelRecord) :
  display_free_models_with_supplier (Some (m :: R))
  = (TableBanner :: TableHeader :: TableRule
       :: map table_row (sorted (m :: R)),
     Returned tt).
Proof.
  unfold display_free_models_with_supplier.
  cbn [truthy_models negb models_of].
  now rewrite for_each_print, !print_then.
Qed.

Lemma display_nothing (models : models_arg) :
  truthy_models models = false ->
  display_free_models_with_supplier models
  = ([TableBanner; MsgNoFreeModels], Returned tt).
Proof.
  intros H. unfold display_free_models_with_supplier. now rewrite H.
Qed.

(** The first piece of a split: the text before the first separator. *)
Lemma split_head_with_separator (sep : ascii) (s : string) :
  contains (String sep "") s = true ->
  exists rest,
    s = hd "" (split sep s) ++ String sep rest
    /\ contains (String sep "") (hd "" (split sep s)) = false.
Proof.
  induction s as [|c s IH]; [discriminate|].
  cbn [contains String.prefix split].
  destruct (ascii_dec sep c) as [->|Hne].
  - intros _. rewrite Ascii.eqb_refl. exists s. split; reflexivity.
  - assert (E : Ascii.eqb c sep = false)
      by (apply Ascii.eqb_neq; congruence).
    rewrite E. cbn [orb]. intros H. destruct (IH H) as [rest [Hs Hno]].
    exists rest. destruct (split sep s) as [|piece pieces] eqn:Esplit;
      [now elim (split_nonempty sep s)|].
    cbn [hd] in *. split; [simpl; now rewrite <- Hs|].
    cbn [contains String.prefix].
    destruct (ascii_dec sep c); [congruence|exact Hno].
Qed.

Lemma split_head_without_separator (sep : ascii) (s : string) :
  contains (String sep "") s = false -> hd "" (split sep s) = s.
Proof.
  induction s as [|c s IH]; [reflexivity|].
  cbn [contains String.prefix split].
  destruct (ascii_dec sep c) as [->|Hne].
  - now destruct s.
  - assert (E : Ascii.eqb c sep = false)
      by (apply Ascii.eqb_neq; congruence).
    rewrite E. cbn [orb]. intros H. specialize (IH H).
    destruct (split sep s) as [|piece pieces] eqn:Esplit;
      [now elim (split_nonempty sep s)|].
    cbn [hd] in *. now rewrite IH.
Qed.

Lemma not_contains_iff (q s : string) :
  contains q s = false <-> ~ occurs_in q s.
Proof.
  rewrite <- contains_iff. destruct (contains q s); split; easy.
Qed.

Lemma supplier_of_spec (model_id : string) :
  (exists rest,
     model_id = supplier_of model_id ++ "/" ++ rest
     /\ ~ occurs_in "/" (supplier_of model_id))
  \/ (~ occurs_in "/" model_id /\ supplier_of model_id = "N/A").
Proof.
  unfold supplier_of. destruct (contains "/" model_id) eqn:E.
  - left. destruct (split_head_with_separator "/" model_id E)
      as [rest [Hs Hno]].
    exists rest. split; [exact Hs|now apply not_contains_iff].
  - right. split; [now apply not_contains_iff|reflexivity].
Qed.

(** The rows of the table are in ascending order of the sort keys of their
    records, and they are the rows of the input records. *)
Lemma table_rows_sorted_by_key (m : ModelRecord) (R : list ModelRecord) :
  exists l,
    fst (display_free_models_with_supplier (Some (m :: R)))
    = TableBanner :: TableHeader :: TableRule :: map table_row l
    /\ Permutation l (m :: R)
    /\ StronglySorted key_le l.
Proof.
  exists (sorted (m :: R)). rewrite display_rows.
  split; [reflexivity|].
  split; [apply sorted_perm|apply sorted_StronglySorted].
Qed.

(** For a record whose id names a supplier, the printed columns are the
    sort key. *)
Lemma row_columns_sort_key (m : ModelRecord) (s : string) :
  id m = Some s -> contains "/" s = true ->
  row_columns (table_row m) = Some (sort_key m).
Proof.
  intros Hid Hslash. unfold table_row, sort_key, supplier_of, get_id.
  rewrite Hid, Hslash. reflexivity.
Qed.

(** C4.  The table is sorted by the sort key, and the sort key is not what
    the rows show.  For the free records with ids ["beta:free"] and
    ["acme/foo:free"] the key of the first is its whole id, so it is printed
    second, with the supplier ["N/A"], after the supplier ["acme"]: the
    printed (supplier, id) pairs are not ascending, also when the two
    records reach the table through the main block.  And the key ['z'] of a
    record without an id does not sort last: such a record is printed before
    ["z-ai/glm-4.5-air:free"]. *)
Theorem table_not_sorted_by_printed_supplier :
  display_free_models_with_supplier (Some [bare_free; acme_free])
  = ([TableBanner; TableHeader; TableRule;
      TableRow "acme" "acme/foo:free" "8,192";
      TableRow "N/A" "beta:free" "32,768"], Returned tt)
  /\ pair_leb ("acme", "acme/foo:free") ("N/A", "beta:free") = false
  /\ rows_ascending
       (fst (display_free_models_with_supplier (Some [bare_free; acme_free])))
     = false
  /\ option_map (fun run => table_rows (fst run))
                (main (delivers [bare_free_json; acme_free_json]))
     = Some [TableRow "acme" "acme/foo:free" "8,192";
             TableRow "N/A" "beta:free" "32,768"]
  /\ display_free_models_with_supplier (Some [z_ai_free; anonymous_model])
     = ([TableBanner; TableHeader; TableRule;
         TableRow "N" "N/A" "4,096";
         TableRow "z-ai" "z-ai/glm-4.5-air:free" "131,072"], Returned tt).
Proof. repeat split. Qed.

End SupplierTable.

Section SupplierTableOrder.

(** When every id names a supplier, the printed (supplier, id) columns are
    the sort keys, and the rows are ascending. *)
Lemma rows_ascending_with_suppliers (l : list ModelRecord) :
  Sorted key_le l ->
  Forall (fun m => exists s, id m = Some s /\ contains "/" s = true) l ->
  rows_ascending (map table_row l) = true.
Proof.
  induction 1 as [|m l Hl IH Hhd]; intros Hall; [reflexivity|].
  inversion Hall as [|? ? [s [Hid Hs]] Hall']; subst.
  destruct l as [|m' l]; [reflexivity|].
  specialize (IH Hall').
  inversion Hall' as [|? ? [s' [Hid' Hs']] _]; subst.
  inversion Hhd as [|? ? Hle]; subst.
  change (rows_ascending (map table_row (m :: m' :: l)))
    with (match row_columns (table_row m), row_columns (table_row m') with
          | Some c1, Some c2 =>
              pair_leb c1 c2 && rows_ascending (map table_row (m' :: l))
          | _, _ => rows_ascending (map table_row (m' :: l))
          end).
  rewrite (row_columns_sort_key m s Hid Hs).
  rewrite (row_columns_sort_key m' s' Hid' Hs').
  unfold key_le in Hle. now rewrite Hle, IH.
Qed.

End SupplierTableOrder.

(** ** The fetcher *)

Section Fetcher.

Lemma fetch_models_request_error (e : exn) :
  is_RequestException e = true ->
  fetch_models (GetRaises e) = ([ErrConnect; ErrDetails e], Returned JNull).
Proof. intros H. unfold fetch_models. simpl. now rewrite H. Qed.

Lemma fetch_models_bad_status (status : Z) (b : option json) :
  (400 <= status < 600)%Z ->
  fetch_models (GetReturns (mkResponse status b))
  = ([ErrConnect; ErrDetails HTTPError], Returned JNull).
Proof.
  intros H. unfold fetch_models, raise_for_status. cbn.
  replace ((400 <=? status)%Z && (status <? 600)%Z) with true; [reflexivity|].
  symmetry. apply andb_true_iff. split; [apply Z.leb_le|apply Z.ltb_lt]; lia.
Qed.

Lemma status_passes (status : Z) :
  ~ (400 <= status < 600)%Z ->
  ((400 <=? status)%Z && (status <? 600)%Z) = false.
Proof.
  intros H. apply andb_false_iff.
  destruct (Z_lt_ge_dec status 400); [left; apply Z.leb_gt; lia|].
  right. apply Z.ltb_ge. lia.
Qed.

Lemma fetch_models_not_json (status : Z) :
  ~ (400 <= status < 600)%Z ->
  fetch_models (GetReturns (mkResponse status None))
  = ([ErrConnect; ErrDetails JSONDecodeError], Returned JNull).
Proof.
  intros H. unfold fetch_models, raise_for_status. cbn.
  now rewrite (status_passes status H).
Qed.

Lemma fetch_models_object (status : Z) (fields : list (string * json)) :
  ~ (400 <= status < 600)%Z ->
  fetch_models (GetReturns (mkResponse status (Some (JObj fields))))
  = match lookup "data" fields with
    | Some v => ([], Returned v)
    | None => ([ErrNoDataField], Returned JNull)
    end.
Proof.
  intros H. unfold fetch_models, raise_for_status. cbn.
  rewrite (status_passes status H). cbn.
  now destruct (lookup "data" fields).
Qed.

(** A decoded body that is a number, a boolean or [null] is not a
    container: the test for the ['data'] key raises [TypeError], which no
    clause of the [try] catches. *)
Lemma fetch_models_scalar_body :
  fetch_models scalar_body = ([], Raised TypeError).
Proof. reflexivity. Qed.

Lemma fetch_models_prints_diagnostics (w : get_result) :
  forallb is_fetch_diagnostic (fst (fetch_models w)) = true.
Proof.
  destruct w as [e|[status b]].
  - destruct e; reflexivity.
  - unfold fetch_models, raise_for_status. cbn.
    destruct ((400 <=? status)%Z && (status <? 600)%Z); [reflexivity|].
    destruct b as [d|]; [|reflexivity]. cbn.
    destruct d as [| | |s|items|fields]; try reflexivity; cbn.
    + now destruct (contains "data" s).
    + now destruct (existsb (is_the_string "data") items).
    + now destruct (lookup "data" fields).
Qed.

(** C2, as the specification has it, fails: a response with status 300 and
    a body that has a ['data'] field is a listed failure case (the status is
    not 2xx), and [fetch_models] returns its ['data'] field all the same. *)
Lemma fetch_models_not_as_specified :
  ~ fetch_models_as_specified multiple_choices.
Proof.
  unfold fetch_models_as_specified. cbn.
  intros [diagnostic [Hne H]]. now injection H as <-.
Qed.

(** C2, amended.  [fetch_models] returns [None] after a diagnostic when the
    request raises an exception of the requests library, when the status is
    from 400 to 599, when the body is not JSON, and when the decoded body is
    an object without a ['data'] key.  When the status is outside 400..599
    and the decoded body is an object with a ['data'] key, it returns the
    value of that key as it is and prints nothing. *)
Theorem fetch_models_outcomes :
  (forall e, is_RequestException e = true ->
     fetch_models (GetRaises e) = ([ErrConnect; ErrDetails e], Returned JNull))
  /\ (forall status b, (400 <= status < 600)%Z ->
        fetch_models (GetReturns (mkResponse status b))
        = ([ErrConnect; ErrDetails HTTPError], Returned JNull))
  /\ (forall status, ~ (400 <= status < 600)%Z ->
        fetch_models (GetReturns (mkResponse status None))
        = ([ErrConnect; ErrDetails JSONDecodeError], Returned JNull))
  /\ (forall status fields, ~ (400 <= status < 600)%Z ->
        lookup "data" fields = None ->
        fetch_models (GetReturns (mkResponse status (Some (JObj fields))))
        = ([ErrNoDataField], Returned JNull))
  /\ (forall status fields v, ~ (400 <= status < 600)%Z ->
        lookup "data" fields = Some v ->
        fetch_models (GetReturns (mkResponse status (Some (JObj fields))))
        = ([], Returned v)).
Proof.
  split; [exact fetch_models_request_error|].
  split; [exact fetch_models_bad_status|].
  split; [exact fetch_models_not_json|].
  split; intros status fields; [|intros v]; intros Hs Hl;
    now rewrite fetch_models_object, Hl.
Qed.

Lemma fetch_models_outcomes_witness :
  fetch_models (GetRaises Timeout)
  = ([ErrConnect; ErrDetails Timeout], Returned JNull)
  /\ fetch_models (GetReturns (mkResponse 404 None))
     = ([ErrConnect; ErrDetails HTTPError], Returned JNull)
  /\ fetch_models (GetReturns (mkResponse 200 None))
     = ([ErrConnect; ErrDetails JSONDecodeError], Returned JNull)
  /\ fetch_models (GetReturns (mkResponse 200 (Some (JObj []))))
     = ([ErrNoDataField], Returned JNull)
  /\ fetch_models (GetReturns
                     (mkResponse 200 (Some (JObj [("data", one_entry)]))))
     = ([], Returned one_entry).
Proof.
  destruct fetch_models_outcomes as [H1 [H2 [H3 [H4 H5]]]].
  split; [apply H1; reflexivity|].
  split; [apply H2; lia|].
  split; [apply H3; lia|].
  split; [apply H4; [lia|reflexivity]|].
  apply H5; [lia|reflexivity].
Defined.

End Fetcher.

(** ** The main block *)

Section MainBlock.

Lemma diagnostics_are_not_rows (out : list line) :
  forallb is_fetch_diagnostic out = true ->
  table_rows out = [] /\ list_rows out = []
  /\ ~ In MsgCannotCheck out /\ ~ In MsgNoFreeModels out.
Proof.
  induction out as [|l out IH]; simpl; [easy|].
  intros H. apply andb_true_iff in H as [Hl Hout].
  destruct (IH Hout) as [H1 [H2 [H3 H4]]].
  destruct l; try discriminate; simpl; repeat split; trivial;
    intros [E|E]; try discriminate; auto.
Qed.

(** C3, as the specification has it, fails: after a timeout the main block
    prints the fetching notice and the fetcher's diagnostic and nothing
    else; the matcher's message is not printed. *)
Lemma reports_do_not_run_after_timeout :
  ~ reports_run_without_data MODELS_TO_CHECK (GetRaises Timeout).
Proof.
  intros H. destruct (H eq_refl) as [out [r [Hmain [Hin _]]]].
  injection Hmain as <- _. simpl in Hin.
  repeat destruct Hin as [Hin|Hin]; try discriminate. exact Hin.
Qed.

(** C3, amended.  When [fetch_models] returns [None], or any other false
    value, the main block calls neither report: the run prints the fetching
    notice and the fetcher's diagnostic, and ends normally; no table row and
    no list row is printed, and neither the matcher's nor the supplier
    table's own message appears.  Each report, called with an absent or an
    empty list, prints its banner and its own message and no row. *)
Theorem main_skips_reports_without_data (models_to_check : string)
    (w : get_result) (diagnostic : list line) (data : json) :
  fetch_models w = (diagnostic, Returned data) ->
  truthy data = false ->
  main_with models_to_check w = Some (MsgFetching :: diagnostic, Returned tt)
  /\ table_rows (MsgFetching :: diagnostic) = []
  /\ list_rows (MsgFetching :: diagnostic) = []
  /\ ~ In MsgCannotCheck (MsgFetching :: diagnostic)
  /\ ~ In MsgNoFreeModels (MsgFetching :: diagnostic)
  /\ (forall absent, truthy_models absent = false ->
        check_specific_models models_to_check absent
        = ([CheckBanner; MsgCannotCheck], Returned tt)
        /\ display_free_models_with_supplier absent
           = ([TableBanner; MsgNoFreeModels], Returned tt)).
Proof.
  intros Hfetch Hfalse.
  assert (Hdiag := fetch_models_prints_diagnostics w).
  rewrite Hfetch in Hdiag. cbn [fst] in Hdiag.
  destruct (diagnostics_are_not_rows _ Hdiag) as [H1 [H2 [H3 H4]]].
  split.
  { unfold main_with. now rewrite Hfetch, Hfalse. }
  split; [exact H1|]. split; [exact H2|].
  split; [intros [E|E]; [discriminate|auto]|].
  split; [intros [E|E]; [discriminate|auto]|].
  intros absent Habsent. split.
  - unfold check_specific_models. now rewrite Habsent.
  - now apply display_nothing.
Qed.

Lemma main_skips_reports_without_data_witness :
  main (GetRaises Timeout)
  = Some ([MsgFetching; ErrConnect; ErrDetails Timeout], Returned tt).
Proof.
  apply (main_skips_reports_without_data
           MODELS_TO_CHECK (GetRaises Timeout)
           [ErrConnect; ErrDetails Timeout] JNull); reflexivity.
Defined.

(** With a catalogue of one free entry the main block runs both reports. *)
Lemma main_with_one_entry :
  main (GetReturns (mkResponse 200 (Some (JObj [("data", one_entry)]))))
  = Some ([MsgFetching; MsgFetched; CheckBanner;
           QueryLine "gpt-oss-20b"; StatusNotFound;
           QueryLine "deepseek-r1"; StatusNotFound;
           QueryLine "qwen"; StatusFree; ListHeader; ListRule;
           ListRow "qwen/qwen3-8b:free" "40,960";
           TableBanner; TableHeader; TableRule;
           TableRow "qwen" "qwen/qwen3-8b:free" "40,960"],
          Returned tt).
Proof. reflexivity. Qed.

End MainBlock.

(* ================================================================== *)
(** * Part III: further properties of the code *)
(* ================================================================== *)

(** ** The supplier table, continued *)

Section SupplierTableMore.

Lemma table_rows_of_rows (l : list ModelRecord) :
  table_rows (map table_row l) = map table_row l.
Proof. induction l as [|m l IH]; simpl; [reflexivity|]. now rewrite IH. Qed.

Lemma display_table_rows (models : list ModelRecord) :
  table_rows (fst (display_free_models_with_supplier (Some models)))
  = map table_row (sorted models).
Proof.
  destruct models as [|m R]; [reflexivity|].
  rewrite display_rows. cbn [fst]. apply table_rows_of_rows.
Qed.


(** X2.  The sort is stable: the records that share a sort key appear in
    the table in the order they have in the input. *)
Theorem table_order_is_stable (k : string * string)
    (models : list ModelRecord) :
  filter (fun m => String.eqb (fst (sort_key m)) (fst k)
                   && String.eqb (snd (sort_key m)) (snd k))
         (sorted models)
  = filter (fun m => String.eqb (fst (sort_key m)) (fst k)
                     && String.eqb (snd (sort_key m)) (snd k))
           models.
Proof.
  assert (E : forall m,
             String.eqb (fst (sort_key m)) (fst k)
             && String.eqb (snd (sort_key m)) (snd k)
             = if pair_ltb (sort_key m) k then false
               else negb (pair_ltb k (sort_key m))).
  { intros m. destruct (pair_ltb (sort_key m) k) eqn:A.
    - apply not_true_is_false. intros H.
      apply andb_true_iff in H as [H1 H2].
      apply String.eqb_eq in H1, H2.
      assert (Ek : sort_key m = k) by (destruct (sort_key m), k; simpl in *; congruence).
      rewrite Ek, pair_ltb_irrefl in A. discriminate.
    - destruct (pair_ltb k (sort_key m)) eqn:B; cbn [negb].
      + apply not_true_is_false. intros H.
        apply andb_true_iff in H as [H1 H2].
        apply String.eqb_eq in H1, H2.
        assert (Ek : sort_key m = k) by (destruct (sort_key m), k; simpl in *; congruence).
        rewrite Ek, pair_ltb_irrefl in B. discriminate.
      + rewrite (pair_ltb_trichotomy _ _ A B). now rewrite !String.eqb_refl. }
  rewrite (filter_ext _ _ E). rewrite (filter_ext _ _ E models).
  apply sorted_stable.
Qed.

(** X3.  When every record given to the table has an id with a ['/'] in
    it, the printed (supplier, id) columns of adjacent rows are in ascending
    order. *)
Theorem printed_columns_ascend_with_suppliers (models : list ModelRecord) :
  Forall (fun m => exists s, id m = Some s /\ contains "/" s = true) models ->
  rows_ascending
    (table_rows (fst (display_free_models_with_supplier (Some models))))
  = true.
Proof.
  intros Hall. rewrite display_table_rows.
  apply rows_ascending_with_suppliers; [apply sorted_Sorted|].
  eapply Permutation_Forall; [apply Permutation_sym, sorted_perm|exact Hall].
Qed.

Lemma printed_columns_ascend_with_suppliers_witness :
  rows_ascending
    (table_rows (fst (display_free_models_with_supplier
                        (Some [z_ai_free; gpt_oss_free; acme_free]))))
  = true.
Proof.
  apply printed_columns_ascend_with_suppliers.
  repeat constructor; eexists; split; reflexivity.
Defined.

Lemma StronglySorted_before {A} (R : A -> A -> Prop) (l2 l3 : list A) (z : A) :
  StronglySorted R (l2 ++ z :: l3) -> forall y, In y l2 -> R y z.
Proof.
  induction l2 as [|x l2 IH]; simpl; intros Hs y Hin; [easy|].
  apply StronglySorted_inv in Hs as [Hs Hall].
  destruct Hin as [<-|Hin]; [|now apply IH].
  rewrite Forall_forall in Hall. apply Hall, in_or_app. right. now left.
Qed.

Lemma pair_leb_fst (k1 k2 : string * string) :
  pair_leb k1 k2 = true -> str_ltb (fst k2) (fst k1) = false.
Proof.
  unfold pair_leb, pair_ltb. intros H. apply negb_true_iff in H.
  now apply orb_false_iff in H as [H _].
Qed.

(** In the sorted list, between two records whose sort keys have the same
    first piece, every record has that first piece too. *)
Lemma first_pieces_are_contiguous (models l1 l2 l3 : list ModelRecord)
    (x z : ModelRecord) :
  sorted models = (l1 ++ x :: l2 ++ z :: l3)%list ->
  fst (sort_key x) = fst (sort_key z) ->
  forall y, In y l2 -> fst (sort_key y) = fst (sort_key x).
Proof.
  intros Hsorted Hxz y Hy.
  assert (Hs := sorted_StronglySorted models). rewrite Hsorted in Hs.
  assert (Hs' : StronglySorted key_le (x :: l2 ++ z :: l3)).
  { clear - Hs. induction l1 as [|a l1 IH]; [exact Hs|].
    apply IH. now apply StronglySorted_inv in Hs. }
  apply StronglySorted_inv in Hs' as [Htail Hall].
  assert (Hxy : key_le x y).
  { rewrite Forall_forall in Hall. apply Hall, in_or_app. now left. }
  assert (Hyz : key_le y z) by now apply (StronglySorted_before _ l2 l3).
  apply pair_leb_fst in Hxy, Hyz. rewrite <- Hxz in Hyz.
  now apply str_ltb_trichotomy.
Qed.

End SupplierTableMore.

(** ** The filter feeding the table *)

Section FilterThenTable.

(** X5.  In the table of the filtered catalogue every row shows the id of a
    record of the catalogue, that id ends with [":free"], and the context
    length shown is that record's; the default id ["N/A"] never shows. *)
Theorem free_table_shows_free_ids (R : list ModelRecord)
    (supplier model_id context_len : string) :
  In (TableRow supplier model_id context_len)
     (fst (display_free_models_with_supplier
             (Some (filter_free_models (Some R))))) ->
  ends_with model_id ":free"
  /\ model_id <> "N/A"
  /\ exists m, In m R /\ id m = Some model_id
       /\ context_len = format_thousands (get_context_length m).
Proof.
  intros Hrow.
  assert (Hin : In (TableRow supplier model_id context_len)
                   (table_rows (fst (display_free_models_with_supplier
                      (Some (filter_free_models (Some R))))))).
  { apply filter_In. now split. }
  rewrite display_table_rows, filter_free_models_filter in Hin.
  cbn [models_of] in Hin.
  apply in_map_iff in Hin as [m [E Hm]].
  apply (Permutation_in _ (sorted_perm _)) in Hm.
  apply filter_In in Hm as [HmR Hfree].
  destruct (proj1 (is_free_iff m) Hfree) as [before Hid].
  unfold table_row, get_id in E. rewrite Hid in E.
  injection E as _ <- <-.
  split; [now exists before|]. split.
  - intros Hna. destruct before as [|a [|b [|c [|d before]]]]; discriminate.
  - exists m. now repeat split.
Qed.

Lemma free_table_shows_free_ids_witness :
  ends_with "acme/foo:free" ":free".
Proof.
  apply (free_table_shows_free_ids [gpt_oss_paid; acme_free]
           "acme" "acme/foo:free" "8,192").
  do 3 right. now left.
Defined.

(** X6.  A row listed under the status "free" for any query has a row in
    the table of the filtered catalogue, with the same id and the same
    context length. *)
Theorem free_listing_is_in_free_table (q : string) (R : list ModelRecord)
    (model_id context_len : string) :
  In StatusFree (fst (check_query q R)) ->
  In (ListRow model_id context_len) (fst (check_query q R)) ->
  exists supplier,
    In (TableRow supplier model_id context_len)
       (fst (display_free_models_with_supplier
               (Some (filter_free_models (Some R))))).
Proof.
  rewrite check_query_report. intros Hstatus Hrow.
  destruct (free_matches q R) as [|f F] eqn:EF.
  - exfalso. destruct (non_free_matches q R) as [|n N]; cbn [fst] in Hstatus.
    + simpl in Hstatus. intuition discriminate.
    + apply in_app_or in Hstatus as [H|H];
        [simpl in H; intuition discriminate|].
      apply in_map_iff in H as [m [E _]]. discriminate.
  - cbn [fst] in Hrow. apply in_app_or in Hrow as [H|H];
      [simpl in H; intuition discriminate|].
    apply in_map_iff in H as [m [E Hm]]. rewrite <- EF in Hm.
    apply filter_In in Hm as [HmR Hm]. apply andb_true_iff in Hm as [_ Hfree].
    destruct (proj1 (is_free_iff m) Hfree) as [before Hid].
    unfold list_row, get_id in E. rewrite Hid in E. injection E as <- <-.
    exists (supplier_of (before ++ ":free")).
    assert (Hrows : In (table_row m)
                       (table_rows (fst (display_free_models_with_supplier
                          (Some (filter_free_models (Some R))))))).
    { rewrite display_table_rows, filter_free_models_filter.
      cbn [models_of]. apply in_map.
      apply (Permutation_in _ (Permutation_sym (sorted_perm _))).
      apply filter_In. now split. }
    apply filter_In in Hrows as [Hrows _].
    unfold table_row, get_id in Hrows. now rewrite Hid in Hrows.
Qed.

Lemma free_listing_is_in_free_table_witness :
  exists supplier,
    In (TableRow supplier "openai/gpt-oss-20b:free" "131,072")
       (fst (display_free_models_with_supplier
               (Some (filter_free_models
                        (Some [gpt_oss_free; gpt_oss_paid]))))).
Proof.
  apply (free_listing_is_in_free_table "gpt-oss-20b").
  - right. now left.
  - do 4 right. now left.
Defined.

End FilterThenTable.

(** ** The matcher, continued *)

Section MatcherRuns.

Lemma for_each_outcome {A} (body : A -> Run unit) (c : A -> bool)
    (xs : list A) :
  (forall x, snd (body x) = if c x then Raised TypeError else Returned tt) ->
  snd (for_each xs body)
  = if existsb c xs then Raised TypeError else Returned tt.
Proof.
  intros Hbody. induction xs as [|x xs IH]; [reflexivity|].
  cbn [for_each existsb]. specialize (Hbody x).
  destruct (body x) as [out r]. cbn [snd] in Hbody.
  destruct (c x); subst r; cbn [bind orb]; [reflexivity|].
  destruct (for_each xs body) as [out' r']. exact IH.
Qed.

Lemma for_each_output {A} (body : A -> Run unit) (xs : list A) :
  (forall x, In x xs -> snd (body x) = Returned tt) ->
  fst (for_each xs body) = concat (map (fun x => fst (body x)) xs).
Proof.
  induction xs as [|x xs IH]; intros Hbody; [reflexivity|].
  cbn [for_each map concat].
  assert (Hx := Hbody x (or_introl eq_refl)).
  destruct (body x) as [out r]. cbn [snd fst] in *. subst r. cbn [bind].
  rewrite <- IH by (intros y Hy; apply Hbody; now right).
  now destruct (for_each xs body).
Qed.

Lemma filter_not_free_all (R : list ModelRecord) :
  existsb is_free R = false -> filter (fun m => negb (is_free m)) R = R.
Proof.
  induction R as [|m R IH]; [reflexivity|].
  simpl. destruct (is_free m); [discriminate|].
  simpl. intros H. now rewrite IH.
Qed.

(** How the report of one query ends. *)
Lemma check_query_outcome (q : string) (R : list ModelRecord) :
  snd (check_query q R)
  = if String.eqb "" q && negb (existsb is_free R) && negb (forallb has_id R)
    then Raised TypeError else Returned tt.
Proof.
  rewrite check_query_report.
  destruct (String.eqb_spec "" q) as [<-|Hq]; cbn [andb].
  - rewrite free_matches_empty_query, non_free_matches_empty_query.
    rewrite (filter_nil_existsb is_free R).
    destruct (filter is_free R) eqn:EF; cbn [negb andb]; [|reflexivity].
    assert (Hnone : existsb is_free R = false)
      by now rewrite filter_nil_existsb, EF.
    rewrite (filter_not_free_all R Hnone).
    destruct R as [|m R]; [reflexivity|]. cbn [snd].
    now destruct (forallb has_id (m :: R)).
  - assert (Hids : forallb has_id (non_free_matches q R) = true)
      by (apply non_empty_query_matches_have_id; congruence).
    destruct (free_matches q R); [|reflexivity].
    destruct (non_free_matches q R); [reflexivity|].
    cbn [snd]. now rewrite Hids.
Qed.

Lemma existsb_and_const {A} (p : A -> bool) (b : bool) (xs : list A) :
  existsb (fun x => p x && b) xs = existsb p xs && b.
Proof.
  induction xs as [|x xs IH]; simpl; [reflexivity|].
  rewrite IH. now destruct (p x), b, (existsb p xs).
Qed.

(** How the matcher ends. *)
Lemma check_specific_models_outcome (models_to_check_str : string)
    (all_models : models_arg) :
  snd (check_specific_models models_to_check_str all_models)
  = if matcher_crashes models_to_check_str (models_of all_models)
    then Raised TypeError else Returned tt.
Proof.
  unfold check_specific_models, matcher_crashes.
  destruct all_models as [[|m R]|]; cbn [truthy_models negb models_of].
  - cbn. now rewrite !andb_false_r.
  - rewrite print_then. cbn [snd].
    rewrite (for_each_outcome _
               (fun q => String.eqb "" q
                         && negb (existsb is_free (m :: R))
                         && negb (forallb has_id (m :: R))))
      by (intros q; apply check_query_outcome).
    rewrite (existsb_and_const
               (fun q => String.eqb "" q && negb (existsb is_free (m :: R)))).
    now rewrite (existsb_and_const (String.eqb "")).
  - cbn. now rewrite !andb_false_r.
Qed.



Lemma query_names_app (out1 out2 : list line) :
  query_names (out1 ++ out2) = (query_names out1 ++ query_names out2)%list.
Proof.
  induction out1 as [|l out1 IH]; [reflexivity|].
  destruct l; simpl; now rewrite IH.
Qed.

Lemma query_names_list_rows (l : list ModelRecord) :
  query_names (map list_row l) = [].
Proof. induction l; simpl; auto. Qed.

Lemma check_query_names (q : string) (R : list ModelRecord) :
  query_names (fst (check_query q R)) = [q].
Proof.
  rewrite check_query_report.
  destruct (free_matches q R); [destruct (non_free_matches q R)|];
    cbn [fst]; rewrite ?query_names_app, ?query_names_list_rows;
    reflexivity.
Qed.

(** X8.  When the matcher returns normally over a catalogue that is not
    empty, it has printed one query line for every configured name, in the
    order of the configuration string. *)
Theorem matcher_reports_every_query (models_to_check_str : string)
    (m : ModelRecord) (R : list ModelRecord) :
  matcher_crashes models_to_check_str (m :: R) = false ->
  query_names (fst (check_specific_models models_to_check_str
                      (Some (m :: R))))
  = model_names_to_check models_to_check_str.
Proof.
  intros Hsafe. rewrite check_specific_models_queries, print_then.
  cbn [fst query_names].
  assert (Hok : forall q, In q (model_names_to_check models_to_check_str) ->
                          snd (check_query q (m :: R)) = Returned tt).
  { intros q Hq. rewrite check_query_outcome.
    destruct (String.eqb "" q
              && negb (existsb is_free (m :: R))
              && negb (forallb has_id (m :: R))) eqn:E; [|reflexivity].
    exfalso. unfold matcher_crashes in Hsafe.
    apply andb_true_iff in E as [E E3]. apply andb_true_iff in E as [E1 E2].
    rewrite E2, E3, !andb_true_r in Hsafe.
    apply not_true_iff_false in Hsafe. apply Hsafe.
    apply existsb_exists. now exists q. }
  rewrite (for_each_output _ _ Hok).
  induction (model_names_to_check models_to_check_str) as [|q qs IH];
    [reflexivity|].
  cbn [map concat]. rewrite query_names_app, check_query_names.
  cbn. f_equal. apply IH. intros q' Hq'. apply Hok. now right.
Qed.

Lemma matcher_reports_every_query_witness :
  query_names (fst (check_specific_models MODELS_TO_CHECK
                      (Some [gpt_oss_free; anonymous_model])))
  = ["gpt-oss-20b"; "deepseek-r1"; "qwen"].
Proof.
  apply (matcher_reports_every_query
           MODELS_TO_CHECK gpt_oss_free [anonymous_model]).
  reflexivity.
Defined.

End MatcherRuns.

(** ** Splitting and trimming the configuration string *)

Section ConfiguredNames.

Lemma concat_cons (sep piece : string) (pieces : list string) :
  pieces <> [] ->
  String.concat sep (piece :: pieces)
  = piece ++ sep ++ String.concat sep pieces.
Proof. destruct pieces; [easy|reflexivity]. Qed.

Lemma split_join (sep : ascii) (s : string) :
  String.concat (String sep "") (split sep s) = s.
Proof.
  induction s as [|c s IH]; [reflexivity|].
  cbn [split]. destruct (Ascii.eqb_spec c sep) as [->|Hne].
  - rewrite concat_cons by apply split_nonempty. simpl. now rewrite IH.
  - destruct (split sep s) as [|piece pieces] eqn:E;
      [now elim (split_nonempty sep s)|].
    rewrite <- IH. now destruct pieces.
Qed.

Lemma split_length (sep : ascii) (s : string) :
  List.length (split sep s) = S (count_char sep s).
Proof.
  induction s as [|c s IH]; [reflexivity|].
  cbn [split count_char]. destruct (Ascii.eqb c sep).
  - simpl. now rewrite IH.
  - destruct (split sep s) as [|piece pieces] eqn:E;
      [now elim (split_nonempty sep s)|].
    simpl in *. exact IH.
Qed.

Lemma split_pieces_clean (sep : ascii) (s : string) :
  Forall (fun piece => count_char sep piece = 0) (split sep s).
Proof.
  induction s as [|c s IH]; [now repeat constructor|].
  cbn [split]. destruct (Ascii.eqb c sep) eqn:Ec.
  - now constructor.
  - destruct (split sep s) as [|piece pieces] eqn:E;
      [now elim (split_nonempty sep s)|].
    inversion IH; subst. constructor; [|assumption].
    cbn [count_char]. now rewrite Ec.
Qed.

(** X9.  Splitting at a separator loses nothing: the pieces joined with the
    separator give the string back, there is one piece more than there are
    separators, and no piece has the separator in it. *)
Theorem split_round_trip (sep : ascii) (s : string) :
  String.concat (String sep "") (split sep s) = s
  /\ List.length (split sep s) = S (count_char sep s)
  /\ Forall (fun piece => count_char sep piece = 0) (split sep s).
Proof.
  split; [apply split_join|].
  split; [apply split_length|apply split_pieces_clean].
Qed.

Lemma lstrip_head (s : string) (c : ascii) (rest : string) :
  lstrip s = String c rest -> isspace c = false.
Proof.
  induction s as [|a s IH]; [discriminate|].
  cbn [lstrip]. destruct (isspace a) eqn:Ea; [exact IH|].
  intros E. injection E as <- _. exact Ea.
Qed.

Lemma rstrip_head (c : ascii) (s : string) :
  isspace c = false -> exists rest, rstrip (String c s) = String c rest.
Proof.
  intros Hc. cbn [rstrip]. rewrite Hc.
  destruct (rstrip s); eexists; reflexivity.
Qed.

Lemma rstrip_last (s init : string) (c : ascii) :
  rstrip s = init ++ String c "" -> isspace c = false.
Proof.
  revert init; induction s as [|a s IH]; intros init.
  - destruct init; discriminate.
  - cbn [rstrip]. destruct (rstrip s) as [|d r] eqn:E.
    + destruct (isspace a) eqn:Ea; [destruct init; discriminate|].
      destruct init as [|x init]; simpl; intros H.
      * injection H as <-. exact Ea.
      * injection H as _ H. destruct init; discriminate.
    + destruct init as [|x init]; simpl; intros H; [discriminate|].
      injection H as _ H. now apply (IH init).
Qed.

Lemma rstrip_twice (s : string) : rstrip (rstrip s) = rstrip s.
Proof.
  induction s as [|a s IH]; [reflexivity|].
  cbn [rstrip]. destruct (rstrip s) as [|d r] eqn:E.
  - destruct (isspace a) eqn:Ea; [reflexivity|].
    cbn [rstrip]. now rewrite Ea.
  - cbn [rstrip] in *. now rewrite IH.
Qed.

Lemma lstrip_count (sep : ascii) (s : string) :
  count_char sep s = 0 -> count_char sep (lstrip s) = 0.
Proof.
  induction s as [|a s IH]; [reflexivity|].
  cbn [lstrip]. destruct (isspace a); [|easy].
  cbn [count_char]. intros H. apply IH. lia.
Qed.

Lemma rstrip_count (sep : ascii) (s : string) :
  count_char sep s = 0 -> count_char sep (rstrip s) = 0.
Proof.
  induction s as [|a s IH]; [reflexivity|].
  cbn [rstrip count_char]. intros H.
  assert (Ha : (if Ascii.eqb a sep then 1 else 0) = 0) by lia.
  assert (Hs : count_char sep (rstrip s) = 0) by (apply IH; lia).
  destruct (rstrip s) as [|d r].
  - destruct (isspace a); [reflexivity|]. cbn [count_char]. lia.
  - cbn [count_char] in *. lia.
Qed.

Lemma strip_twice (s : string) : strip (strip s) = strip s.
Proof.
  unfold strip. destruct (lstrip s) as [|c t] eqn:E; [reflexivity|].
  apply lstrip_head in E.
  destruct (rstrip_head c t E) as [rest Hrest]. rewrite Hrest.
  cbn [lstrip]. rewrite E, <- Hrest. apply rstrip_twice.
Qed.

Lemma strip_head (s : string) (c : ascii) (rest : string) :
  strip s = String c rest -> isspace c = false.
Proof.
  unfold strip. destruct (lstrip s) as [|a t] eqn:E; [discriminate|].
  apply lstrip_head in E.
  destruct (rstrip_head a t E) as [r Hr]. rewrite Hr.
  intros H. injection H as <- _. exact E.
Qed.

(** X10.  Every configured name is trimmed and free of semicolons: it
    neither starts nor ends with a whitespace character, trimming it again
    changes nothing, and it has no [';'] in it.  There is one name more than
    the configuration string has semicolons. *)
Theorem configured_names_are_trimmed (models_to_check_str name : string) :
  In name (model_names_to_check models_to_check_str) ->
  (forall c rest, name = String c rest -> isspace c = false)
  /\ (forall init c, name = init ++ String c "" -> isspace c = false)
  /\ strip name = name
  /\ count_char ";" name = 0
  /\ List.length (model_names_to_check models_to_check_str)
     = S (count_char ";" models_to_check_str).
Proof.
  unfold model_names_to_check. intros Hin.
  apply in_map_iff in Hin as [piece [<- Hpiece]].
  split; [intros c rest; apply strip_head|].
  split; [intros init c; unfold strip; apply rstrip_last|].
  split; [apply strip_twice|]. split.
  - unfold strip. apply rstrip_count, lstrip_count.
    assert (H := split_pieces_clean ";" models_to_check_str).
    rewrite Forall_forall in H. now apply H.
  - rewrite length_map. apply split_length.
Qed.

Lemma configured_names_are_trimmed_witness :
  strip "deepseek-r1" = "deepseek-r1".
Proof.
  apply (configured_names_are_trimmed "qwen ;  deepseek-r1 " "deepseek-r1").
  right. now left.
Defined.

End ConfiguredNames.

(** ** The fetcher, continued *)

Section FetcherRuns.

(** Every run of [fetch_models], case by case. *)
Lemma fetch_models_cases (w : get_result) :
  fetch_models w
  = match w with
    | GetRaises e =>
        if is_RequestException e
        then ([ErrConnect; ErrDetails e], Returned JNull)
        else ([], Raised e)
    | GetReturns response =>
        if ((400 <=? status_code response)
            && (status_code response <? 600))%Z
        then ([ErrConnect; ErrDetails HTTPError], Returned JNull)
        else
          match body response with
          | None => ([ErrConnect; ErrDetails JSONDecodeError], Returned JNull)
          | Some (JObj fields) =>
              match lookup "data" fields with
              | Some v => ([], Returned v)
              | None => ([ErrNoDataField], Returned JNull)
              end
          | Some (JArr items) =>
              if existsb (is_the_string "data") items
              then ([], Raised TypeError)
              else ([ErrNoDataField], Returned JNull)
          | Some (JStr s) =>
              if contains "data" s then ([], Raised TypeError)
              else ([ErrNoDataField], Returned JNull)
          | Some _ => ([], Raised TypeError)
          end
    end.
Proof.
  destruct w as [e|[status b]].
  - now destruct e.
  - unfold fetch_models, raise_for_status.
    cbn [requests_get bind ret status_code app].
    destruct ((400 <=? status)%Z && (status <? 600)%Z); [reflexivity|].
    destruct b as [d|]; [|reflexivity].
    destruct d as [| | |s|items|fields]; try reflexivity; cbn.
    + now destruct (contains "data" s).
    + now destruct (existsb (is_the_string "data") items).
    + now destruct (lookup "data" fields).
Qed.

(** X12.  Whenever [fetch_models] prints something, it prints at most two
    lines and returns [None]; so a value other than [None] comes back
    without any output. *)
Theorem fetch_models_output_means_none (w : get_result) :
  fst (fetch_models w) <> [] ->
  snd (fetch_models w) = Returned JNull
  /\ List.length (fst (fetch_models w)) <= 2.
Proof.
  rewrite fetch_models_cases.
  destruct w as [e|[status b]].
  - destruct (is_RequestException e); cbn; [auto|easy].
  - cbn [status_code body].
    destruct ((400 <=? status)%Z && (status <? 600)%Z); [cbn; auto|].
    destruct b as [d|]; [|cbn; auto].
    destruct d as [| | |s|items|fields]; cbn; try easy.
    + destruct (contains "data" s); cbn; [easy|auto].
    + destruct (existsb (is_the_string "data") items); cbn; [easy|auto].
    + destruct (lookup "data" fields); cbn; [easy|auto].
Qed.

Lemma fetch_models_output_means_none_witness :
  snd (fetch_models (GetReturns (mkResponse 503 None))) = Returned JNull.
Proof.
  apply (fetch_models_output_means_none (GetReturns (mkResponse 503 None))).
  discriminate.
Defined.

(** X13.  The message of the second [except] clause is never printed: a
    body that is not JSON raises an exception that the first clause already
    catches, so the run prints the connection message instead. *)
Theorem parse_message_is_never_printed (w : get_result) :
  existsb is_parse_message (fst (fetch_models w)) = false
  /\ (forall status, (status < 400 \/ 600 <= status)%Z ->
        fst (fetch_models (GetReturns (mkResponse status None)))
        = [ErrConnect; ErrDetails JSONDecodeError]).
Proof.
  split.
  - rewrite fetch_models_cases.
    destruct w as [e|[status b]].
    + now destruct (is_RequestException e).
    + cbn [status_code body].
      destruct ((400 <=? status)%Z && (status <? 600)%Z); [reflexivity|].
      destruct b as [d|]; [|reflexivity].
      destruct d as [| | |s|items|fields]; try reflexivity.
      * now destruct (contains "data" s).
      * now destruct (existsb (is_the_string "data") items).
      * now destruct (lookup "data" fields).
  - intros status Hs. rewrite fetch_models_not_json; [reflexivity|lia].
Qed.

End FetcherRuns.

(** ** Formatting the columns *)

Section Formatting.

Lemma remove_commas_group3 (digits : string) :
  remove_commas (group3 digits) = remove_commas digits.
Proof.
  induction digits as [|d rest IH]; [reflexivity|].
  cbn [group3 remove_commas]. destruct (Ascii.eqb d ",");
    destruct ((0 <? String.length rest)%nat
              && (String.length rest mod 3 =? 0)%nat);
    cbn [remove_commas Ascii.eqb]; now rewrite ?IH.
Qed.

Lemma digits_have_no_comma (u : Decimal.uint) :
  count_char "," (NilEmpty.string_of_uint u) = 0.
Proof. induction u; simpl; auto. Qed.

Lemma remove_commas_without (s : string) :
  count_char "," s = 0 -> remove_commas s = s.
Proof.
  induction s as [|c s IH]; [reflexivity|].
  cbn [count_char remove_commas]. destruct (Ascii.eqb c ","); [lia|].
  intros H. now rewrite IH.
Qed.

Lemma decimal_has_no_comma (u : Decimal.uint) :
  count_char "," (NilZero.string_of_uint u) = 0.
Proof. destruct u; try reflexivity; apply digits_have_no_comma. Qed.

Lemma decimal_not_empty (u : Decimal.uint) :
  NilZero.string_of_uint u <> "".
Proof. destruct u; discriminate. Qed.

Lemma format_thousands_digits (n : Z) :
  remove_commas (format_thousands n) = NilZero.string_of_int (Z.to_int n).
Proof.
  unfold format_thousands.
  destruct n as [|p|p]; cbn [Z.ltb Z.compare Z.abs_N N.to_uint Z.to_int
                              NilZero.string_of_int remove_commas].
  - reflexivity.
  - rewrite remove_commas_group3.
    apply remove_commas_without, decimal_has_no_comma.
  - change (Ascii.eqb "-" ",") with false. cbv iota.
    rewrite remove_commas_group3. f_equal.
    apply remove_commas_without, decimal_has_no_comma.
Qed.

(** X14.  The context length column shows the number itself: without its
    commas the text is the decimal numeral of the number, and reading that
    numeral gives the number back. *)
Theorem format_thousands_round_trip (n : Z) :
  remove_commas (format_thousands n) = NilZero.string_of_int (Z.to_int n)
  /\ option_map Z.of_int
       (NilZero.int_of_string (remove_commas (format_thousands n)))
     = Some n.
Proof.
  split; [apply format_thousands_digits|].
  rewrite format_thousands_digits, NilZero.isi.
  - cbn [option_map]. now rewrite DecimalZ.of_to.
  - destruct n; try discriminate. cbn [Z.to_int]. intros H.
    injection H as H. now apply DecimalPos.Unsigned.to_uint_nonnil in H.
  - destruct n; try discriminate. cbn [Z.to_int]. intros H.
    injection H as H. now apply DecimalPos.Unsigned.to_uint_nonnil in H.
Qed.

Lemma mod3_step (L : nat) :
  1 <= L ->
  (L mod 3 = 0 -> (L - 1) mod 3 = 2)
  /\ (L mod 3 <> 0 -> S ((L - 1) mod 3) = L mod 3).
Proof.
  intros HL.
  assert (H1 := Nat.div_mod_eq L 3).
  assert (H2 := Nat.mod_upper_bound L 3).
  assert (H3 := Nat.div_mod_eq (L - 1) 3).
  assert (H4 := Nat.mod_upper_bound (L - 1) 3).
  lia.
Qed.

Lemma group3_groups (digits : string) :
  digits <> "" -> count_char "," digits = 0 ->
  exists first rest,
    split "," (group3 digits) = first :: rest
    /\ String.length first = S ((String.length digits - 1) mod 3)
    /\ count_char "," first = 0
    /\ Forall (fun g => String.length g = 3) rest.
Proof.
  induction digits as [|d tail IH]; [easy|]. intros _ Hclean.
  cbn [count_char] in Hclean.
  assert (Ed : Ascii.eqb d "," = false)
    by (destruct (Ascii.eqb d ","); [lia|reflexivity]).
  rewrite Ed in Hclean. cbn [group3].
  destruct tail as [|d' tail'].
  - exists (String d ""), []. cbn [split String.length Nat.ltb Nat.leb andb].
    rewrite Ed. cbn. rewrite Ed. repeat split; constructor.
  - destruct (IH ltac:(discriminate) Hclean) as [f [r [Hs [Hlen [Hf Hr]]]]].
    set (tail := String d' tail') in *.
    assert (HL : 1 <= String.length tail) by (cbn; lia).
    destruct (mod3_step _ HL) as [Hzero Hnonzero].
    replace (0 <? String.length tail)%nat with true
      by (symmetry; apply Nat.ltb_lt; lia).
    cbn [andb]. destruct (String.length tail mod 3 =? 0)%nat eqn:Em.
    + apply Nat.eqb_eq in Em.
      exists (String d ""), (f :: r).
      cbn [split]. rewrite Ed. change (Ascii.eqb "," ",") with true.
      cbv iota. rewrite Hs. repeat split.
      * cbn [String.length]. replace (S (String.length tail) - 1)
          with (String.length tail) by lia. now rewrite Em.
      * cbn [count_char]. now rewrite Ed.
      * constructor; [|exact Hr]. rewrite Hlen, (Hzero Em). reflexivity.
    + apply Nat.eqb_neq in Em.
      exists (String d f), r.
      cbn [split]. rewrite Ed, Hs. repeat split.
      * cbn [String.length]. rewrite Hlen.
        replace (S (String.length tail) - 1)
          with (String.length tail) by lia.
        now rewrite (Hnonzero Em).
      * cbn [count_char]. now rewrite Ed.
      * exact Hr.
Qed.

(** X15.  The commas of the context length column cut the digits into
    groups of three from the right: split at the commas, the text is a first
    group of one to three digits, after the sign if the number is negative,
    and then groups of exactly three characters. *)
Theorem format_thousands_groups (n : Z) :
  exists first rest,
    split "," (format_thousands n)
    = (if (n <? 0)%Z then String "-" first else first) :: rest
    /\ 1 <= String.length first <= 3
    /\ Forall (fun g => String.length g = 3) rest.
Proof.
  unfold format_thousands.
  destruct (group3_groups
              (NilZero.string_of_uint (N.to_uint (Z.abs_N n)))
              (decimal_not_empty _) (decimal_has_no_comma _))
    as [f [r [Hs [Hlen [Hf Hr]]]]].
  exists f, r. split; [|split; [|exact Hr]].
  - destruct (n <? 0)%Z; [|exact Hs].
    cbn [split]. change (Ascii.eqb "-" ",") with false. cbv iota.
    now rewrite Hs.
  - rewrite Hlen.
    assert (H := Nat.mod_upper_bound
                   (String.length
                      (NilZero.string_of_uint (N.to_uint (Z.abs_N n))) - 1) 3).
    lia.
Qed.

Lemma spaces_length (n : nat) : String.length (spaces n) = n.
Proof. induction n; simpl; congruence. Qed.

Lemma ljust_length (w : nat) (s : string) :
  String.length (ljust w s) = Nat.max w (String.length s).
Proof. unfold ljust. rewrite length_append, spaces_length. lia. Qed.

Lemma rjust_length (w : nat) (s : string) :
  String.length (rjust w s) = Nat.max w (String.length s).
Proof. unfold rjust. rewrite length_append, spaces_length. lia. Qed.

(** X16.  The computed lines have fixed-width columns and never cut a
    value: a table row is as long as its three columns, each at least 30, 60
    and 25 wide, and the two blanks between them; a list row as its marker
    of five characters, the two columns, at least 58 and 25 wide, and one
    blank; and each line starts with the unpadded text of its first
    column. *)
Theorem rendered_rows_have_fixed_columns
    (supplier model_id context_len : string) :
  (exists text,
     render_row (TableRow supplier model_id context_len) = Some text
     /\ String.length text
        = Nat.max 30 (String.length supplier) + 1
          + Nat.max 60 (String.length model_id) + 1
          + Nat.max 25 (String.length context_len)
     /\ String.prefix supplier text = true)
  /\ (exists text,
        render_row (ListRow model_id context_len) = Some text
        /\ String.length text
           = 5 + Nat.max 58 (String.length model_id) + 1
             + Nat.max 25 (String.length context_len)
        /\ String.prefix ("   - " ++ model_id) text = true).
Proof.
  split; eexists; (split; [reflexivity|]); split.
  - rewrite !length_append, !ljust_length, rjust_length. cbn. lia.
  - apply prefix_iff. unfold ljust. rewrite append_assoc.
    eexists. reflexivity.
  - rewrite !length_append, ljust_length, rjust_length. cbn. lia.
  - apply prefix_iff. unfold ljust. rewrite !append_assoc.
    eexists. reflexivity.
Qed.

End Formatting.

(** ** The main block, continued *)

Section MainRuns.

Lemma fetch_models_value_is_silent (w : get_result) (v : json) :
  snd (fetch_models w) = Returned v -> v <> JNull ->
  fst (fetch_models w) = [].
Proof.
  rewrite fetch_models_cases.
  destruct w as [e|[status b]].
  - destruct (is_RequestException e); cbn; [congruence|discriminate].
  - cbn [status_code body].
    destruct ((400 <=? status)%Z && (status <? 600)%Z); cbn; [congruence|].
    destruct b as [d|]; cbn; [|congruence].
    destruct d as [| | |s|items|fields]; cbn; try discriminate.
    + destruct (contains "data" s); cbn; [discriminate|congruence].
    + destruct (existsb (is_the_string "data") items); cbn;
        [discriminate|congruence].
    + destruct (lookup "data" fields); cbn; [reflexivity|congruence].
Qed.

Lemma display_returns (models : models_arg) :
  snd (display_free_models_with_supplier models) = Returned tt.
Proof.
  destruct models as [[|m R]|]; try reflexivity.
  now rewrite display_rows.
Qed.

(** X17.  When the fetched data is a non-empty list of records, the main
    block prints the fetching notice, the success notice and the matcher's
    report; if the matcher returned, the table of the filtered catalogue
    follows and the run ends normally; if the matcher raised, the run ends
    with that [TypeError] and the table is not printed at all. *)
Theorem main_runs_matcher_then_table (models_to_check : string)
    (w : get_result) (data : json) (R : list ModelRecord) :
  snd (fetch_models w) = Returned data ->
  as_models data = Some R ->
  R <> [] ->
  main_with models_to_check w
  = Some
      (if matcher_crashes models_to_check R
       then ((MsgFetching :: MsgFetched
                :: fst (check_specific_models models_to_check (Some R)))%list,
             Raised TypeError)
       else ((MsgFetching :: MsgFetched
                :: fst (check_specific_models models_to_check (Some R))
                ++ fst (display_free_models_with_supplier
                          (Some (filter_free_models (Some R)))))%list,
             Returned tt)).
Proof.
  intros Hfetch Hdata HR.
  assert (Hitems : exists v items, data = JArr (v :: items)).
  { destruct data as [| | | |items|]; try discriminate.
    destruct items as [|v items]; [|now exists v, items].
    cbn in Hdata. injection Hdata as <-. now elim HR. }
  destruct Hitems as [v [items ->]].
  assert (Hout := fetch_models_value_is_silent w _ Hfetch ltac:(discriminate)).
  unfold main_with. destruct (fetch_models w) as [out r].
  cbn [fst snd] in *. subst out r. cbn [truthy]. rewrite Hdata.
  unfold report.
  assert (Hcheck := check_specific_models_outcome
                      models_to_check (Some R)).
  assert (Hdisplay := display_returns (Some (filter_free_models (Some R)))).
  cbn [models_of] in Hcheck.
  destruct (check_specific_models models_to_check (Some R)) as [oc rc].
  destruct (display_free_models_with_supplier
              (Some (filter_free_models (Some R)))) as [od rd].
  cbn [fst snd] in *. subst rc rd.
  now destruct (matcher_crashes models_to_check R).
Qed.

Lemma main_runs_matcher_then_table_witness :
  main_with "qwen;" (delivers [anonymous_json])
  = Some ([MsgFetching; MsgFetched; CheckBanner;
           QueryLine "qwen"; StatusNotFound;
           QueryLine ""; StatusNotFree; ListHeader; ListRule],
          Raised TypeError).
Proof.
  apply (main_runs_matcher_then_table
           "qwen;" (delivers [anonymous_json])
           (JArr [anonymous_json]) [anonymous_model]);
    [reflexivity|reflexivity|discriminate].
Defined.

End MainRuns.

(** ** The selection policy of the matcher *)

Section SelectionPolicy.

(** A query whose report returns has the report the policy words. *)
Lemma check_query_selected (q : string) (R : list ModelRecord) :
  snd (check_query q R) = Returned tt ->
  check_query q R = (selected_report q R, Returned tt).
Proof.
  rewrite check_query_report. unfold selected_report.
  destruct (free_matches q R) as [|f F]; [|reflexivity].
  destruct (non_free_matches q R) as [|n N] eqn:EN; [reflexivity|].
  cbn [snd]. destruct (forallb has_id (n :: N)) eqn:Hids; [|discriminate].
  intros _. now rewrite (with_id_prefix_all _ Hids).
Qed.

Lemma matcher_safe_queries (models_to_check_str : string)
    (R : list ModelRecord) (q : string) :
  matcher_crashes models_to_check_str R = false ->
  In q (model_names_to_check models_to_check_str) ->
  snd (check_query q R) = Returned tt.
Proof.
  intros Hsafe Hq. rewrite check_query_outcome.
  destruct (String.eqb "" q && negb (existsb is_free R)
            && negb (forallb has_id R)) eqn:E; [|reflexivity].
  exfalso. unfold matcher_crashes in Hsafe.
  apply andb_true_iff in E as [E E3]. apply andb_true_iff in E as [E1 E2].
  rewrite E2, E3, !andb_true_r in Hsafe.
  apply not_true_iff_false in Hsafe. apply Hsafe.
  apply existsb_exists. now exists q.
Qed.

(** C1.  The matcher follows the selection policy wherever it returns: for
    every configuration string and every catalogue on which it does not end
    with [TypeError], [check_specific_models] prints its banner and then,
    for each configured query in order, the query line, the status "free"
    with a row for every free match, or else the status "not free" with a
    row for every other match, or else the status "not found" and no list.
    It does not follow the policy for every query and catalogue: for the
    empty query over the records with ids ["a/b"], none, ["c/d"] the policy
    lists three rows under "not free", and the code lists the first and
    raises [TypeError] on the record without an id. *)
Theorem matcher_selection_policy :
  (forall models_to_check_str m R,
     matcher_crashes models_to_check_str (m :: R) = false ->
     check_specific_models models_to_check_str (Some (m :: R))
     = (CheckBanner
          :: concat (map (fun q => selected_report q (m :: R))
                         (model_names_to_check models_to_check_str)),
        Returned tt))
  /\ check_specific_models "" (Some [vendor_a; anonymous_model; vendor_c])
     = ([CheckBanner; QueryLine ""; StatusNotFree; ListHeader; ListRule;
         ListRow "a/b" "1,024"], Raised TypeError)
  /\ selected_report "" [vendor_a; anonymous_model; vendor_c]
     = [QueryLine ""; StatusNotFree; ListHeader; ListRule;
        ListRow "a/b" "1,024"; ListRow "" "4,096"; ListRow "c/d" "2,048"].
Proof.
  split; [|split; reflexivity].
  intros cfg m R Hsafe.
  assert (Hend := check_specific_models_outcome cfg (Some (m :: R))).
  cbn [models_of] in Hend. rewrite Hsafe in Hend.
  assert (Hok : forall q, In q (model_names_to_check cfg) ->
                          snd (check_query q (m :: R)) = Returned tt)
    by (intros q; now apply matcher_safe_queries).
  assert (Hout := for_each_output
                    (fun q => check_query q (m :: R)) _ Hok).
  rewrite check_specific_models_queries, print_then in *.
  cbn [snd] in Hend.
  destruct (for_each (model_names_to_check cfg)
                     (fun q => check_query q (m :: R))) as [out r].
  cbn [fst snd] in *. subst r. f_equal. f_equal. rewrite Hout.
  clear Hout. induction (model_names_to_check cfg) as [|q qs IH];
    [reflexivity|].
  cbn [map concat].
  rewrite (check_query_selected q (m :: R)) by (apply Hok; now left).
  cbn [fst]. f_equal. apply IH. intros q' Hq'. apply Hok. now right.
Qed.

End SelectionPolicy.

(** ** The supplier column *)

Section SupplierColumn.

Lemma hd_app_nonempty {A} (d : A) (l1 l2 : list A) :
  l1 <> [] -> hd d (l1 ++ l2) = hd d l1.
Proof. destruct l1; [easy|reflexivity]. Qed.

(** The code's supplier is the one the words of the specification fix. *)
Lemma supplier_of_unique (model_id supplier : string) :
  (exists rest, model_id = supplier ++ "/" ++ rest
                /\ ~ occurs_in "/" supplier)
  \/ (~ occurs_in "/" model_id /\ supplier = "N/A") ->
  supplier_of model_id = supplier.
Proof.
  unfold supplier_of. intros [[rest [-> Hno]]|[Hno ->]].
  - assert (Hin : contains "/" (supplier ++ "/" ++ rest) = true)
      by (apply contains_iff; now exists supplier, rest).
    rewrite Hin.
    change (supplier ++ "/" ++ rest) with (supplier ++ String "/" rest).
    rewrite split_at_separator, hd_app_nonempty by apply split_nonempty.
    apply split_head_without_separator. now apply not_contains_iff.
  - apply not_contains_iff in Hno. now rewrite Hno.
Qed.

(** C8.  Which rows the table has, for every input list: one for each
    record; a record with an id is shown with that id, and its supplier
    column is the text of the id before the first ['/'], or ["N/A"] when the
    id has no ['/'].  A record without an id is not shown with the sentinel:
    its id column is ["N/A"] and its supplier column is ["N"], the text of
    that default before its ['/']. *)
Theorem supplier_column_of_every_row :
  (forall models supplier model_id context_len,
     In (TableRow supplier model_id context_len)
        (fst (display_free_models_with_supplier (Some models)))
     <-> exists m,
           In m models
           /\ context_len = format_thousands (get_context_length m)
           /\ ((id m = Some model_id
                /\ ((exists rest, model_id = supplier ++ "/" ++ rest
                                  /\ ~ occurs_in "/" supplier)
                    \/ (~ occurs_in "/" model_id /\ supplier = "N/A")))
               \/ (id m = None /\ model_id = "N/A" /\ supplier = "N")))
  /\ display_free_models_with_supplier (Some [anonymous_model])
     = ([TableBanner; TableHeader; TableRule; TableRow "N" "N/A" "4,096"],
        Returned tt).
Proof.
  split; [|reflexivity].
  intros models supplier model_id context_len.
  assert (Hrows : In (TableRow supplier model_id context_len)
                     (fst (display_free_models_with_supplier (Some models)))
                  <-> exists m, In m models
                        /\ table_row m
                           = TableRow supplier model_id context_len).
  { destruct models as [|m0 R].
    - split; [|intros [m [[] _]]].
      intros H. simpl in H. intuition discriminate.
    - rewrite display_rows. cbn [fst]. split.
      + intros H. destruct H as [H|[H|[H|H]]]; try discriminate.
        apply in_map_iff in H as [m [E Hin]]. exists m. split; [|exact E].
        eapply Permutation_in; [apply sorted_perm|exact Hin].
      + intros [m [Hin E]]. do 3 right. rewrite <- E. apply in_map.
        eapply Permutation_in; [apply Permutation_sym, sorted_perm|exact Hin]. }
  rewrite Hrows. split.
  - intros [m [Hin E]]. exists m. split; [exact Hin|].
    unfold table_row, get_id in E. destruct (id m) as [s|] eqn:Hid.
    + injection E as Esup Eid Ectx. subst s. split; [now symmetry|].
      left. split; [reflexivity|]. rewrite <- Esup. apply supplier_of_spec.
    + injection E as Esup Eid Ectx. split; [now symmetry|].
      right. now repeat split.
  - intros [m [Hin [Hctx [[Hid Hsup]|[Hid [-> ->]]]]]]; exists m;
      (split; [exact Hin|]); unfold table_row, get_id; rewrite Hid, <- Hctx.
    + now rewrite (supplier_of_unique _ _ Hsup).
    + reflexivity.
Qed.

End SupplierColumn.

(** ** The blocks of the supplier table *)

Section SupplierBlocks.

(** X4.  When every record given to the table has an id with a ['/'] in
    it, the printed rows of one supplier form one block: between two rows
    that show the same supplier, every row shows that supplier. *)
Theorem supplier_rows_are_contiguous (models : list ModelRecord)
    (rows1 rows2 rows3 : list line)
    (supplier id1 context_len1 id2 context_len2 : string) :
  Forall (fun m => exists s, id m = Some s /\ contains "/" s = true) models ->
  table_rows (fst (display_free_models_with_supplier (Some models)))
  = (rows1 ++ TableRow supplier id1 context_len1
       :: rows2 ++ TableRow supplier id2 context_len2 :: rows3)%list ->
  forall row, In row rows2 ->
  exists model_id context_len, row = TableRow supplier model_id context_len.
Proof.
  intros Hall Hrows row Hrow. rewrite display_table_rows in Hrows.
  apply map_eq_app in Hrows as [l1 [l' [Hsorted [_ Hrows]]]].
  apply map_eq_cons in Hrows as [x [l'' [-> [Hx Hrows]]]].
  apply map_eq_app in Hrows as [l2 [l''' [-> [Hl2 Hrows]]]].
  apply map_eq_cons in Hrows as [z [l3 [-> [Hz _]]]].
  subst rows2. apply in_map_iff in Hrow as [y [<- Hy]].
  assert (Hids : forall m, In m (sorted models) ->
                           row_columns (table_row m) = Some (sort_key m)).
  { intros m Hm. apply (Permutation_in _ (sorted_perm _)) in Hm.
    rewrite Forall_forall in Hall. destruct (Hall m Hm) as [s [Hid Hs]].
    now apply (row_columns_sort_key m s). }
  rewrite Hsorted in Hids.
  assert (Kx := Hids x ltac:(apply in_or_app; right; now left)).
  assert (Kz := Hids z ltac:(apply in_or_app; right; right;
                             apply in_or_app; right; now left)).
  assert (Ky := Hids y ltac:(apply in_or_app; right; right;
                             apply in_or_app; now left)).
  rewrite Hx in Kx. rewrite Hz in Kz. cbn [row_columns] in Kx, Kz.
  assert (Ex : sort_key x = (supplier, id1)) by congruence.
  assert (Ez : sort_key z = (supplier, id2)) by congruence.
  assert (Hxz : fst (sort_key x) = fst (sort_key z))
    by now rewrite Ex, Ez.
  assert (Hblock := first_pieces_are_contiguous
                      models l1 l2 l3 x z Hsorted Hxz y Hy).
  rewrite Ex in Hblock. cbn [fst] in Hblock.
  destruct (table_row y) as [| | | | | | | | | | | | | | | | | | |sup i c]
    eqn:Erow; try discriminate.
  cbn [row_columns] in Ky.
  assert (Ey : sort_key y = (sup, i)) by congruence.
  rewrite Ey in Hblock. cbn [fst] in Hblock. subst sup.
  now exists i, c.
Qed.

Lemma supplier_rows_are_contiguous_witness :
  exists model_id context_len,
    TableRow "openai" "openai/gpt-oss-20b" "131,072"
    = TableRow "openai" model_id context_len.
Proof.
  apply (supplier_rows_are_contiguous
           [gpt_oss_free; z_ai_free; gpt_oss_120b_free; acme_free;
            gpt_oss_paid]
           [TableRow "acme" "acme/foo:free" "8,192"]
           [TableRow "openai" "openai/gpt-oss-20b" "131,072"]
           [TableRow "z-ai" "z-ai/glm-4.5-air:free" "131,072"]
           "openai" "openai/gpt-oss-120b:free" "131,072"
           "openai/gpt-oss-20b:free" "131,072").
  - repeat constructor; eexists; split; reflexivity.
  - reflexivity.
  - now left.
Defined.

End SupplierBlocks.

(** ** Exceptions that leave the fetcher *)

Section FetcherEscapes.

(** X11.  On an exchange where the request raised, or the status is from
    400 to 599, or the body is JSON, an exception leaves [fetch_models]
    exactly on the exchanges of [escapes]; it is never an exception of the
    requests library, and nothing has been printed then; otherwise
    [fetch_models] returns a value. *)
Theorem fetch_models_escape_condition (w : get_result) :
  body_decodes w = true ->
  match fetch_models w with
  | (out, Raised e) =>
      escapes w = true /\ is_RequestException e = false /\ out = []
  | (_, Returned _) => escapes w = false
  end.
Proof.
  rewrite fetch_models_cases. unfold escapes, body_decodes.
  destruct w as [e|[status b]].
  - intros _. destruct (is_RequestException e) eqn:E; cbn; auto.
  - cbn [status_code body].
    destruct ((400 <=? status)%Z && (status <? 600)%Z); [reflexivity|].
    destruct b as [d|]; [intros _|discriminate].
    destruct d as [| | |s|items|fields]; cbn; auto.
    + destruct (contains "data" s); cbn; auto.
    + destruct (existsb (is_the_string "data") items); cbn; auto.
    + now destruct (lookup "data" fields).
Qed.

Lemma fetch_models_escape_condition_witness :
  match fetch_models scalar_body with
  | (out, Raised e) =>
      escapes scalar_body = true /\ is_RequestException e = false
      /\ out = []
  | (_, Returned _) => escapes scalar_body = false
  end.
Proof.
  apply (fetch_models_escape_condition scalar_body). reflexivity.
Defined.

End FetcherEscapes.
